(** * emr_basics: the Amazon EMR wrapper functions of [emr_basics.py]

    The module holds six functions.  Each one evaluates the keyword
    arguments of a single call on the Boto3 EMR client it is handed, makes
    that call inside [try: ... except ClientError: ... else: ...], logs the
    outcome on the module-level [logger] and either returns a field of the
    response or re-raises.

    The embedding is shallow.  Python values are an inductive type, the
    operations the module applies to them ([v[k]], [v.attr], iteration,
    [len]) are total functions into a result type that can raise, and the
    two effects of the module (records emitted on [logger], calls made on
    the client) are threaded through a small state-and-exception monad. *)

From Stdlib Require Import List String Ascii ZArith Bool Lia.
Import ListNotations.
Open Scope string_scope.
Open Scope list_scope.

Set Warnings "-register-all".

(** ** Python values *)

(** The values the module handles: what callers pass in, what the request
    literals are built from and what the client hands back.  A dict is kept
    as an association list in insertion order, with string keys (the only
    keys the module ever uses); keys are meant to be distinct and lookup
    takes the first binding.  A [str] is a string of one-byte characters.
    [VObject] is an instance that exposes the given attributes and nothing
    else (an IAM role or security group resource): it is neither
    subscriptable nor iterable and has no length. *)
Inductive value : Type :=
| VNone
| VBool (b : bool)
| VInt (z : Z)
| VStr (s : string)
| VList (items : list value)
| VDict (entries : list (string * value))
| VObject (attrs : list (string * value)).

(** Exceptions.  [ClientError] is botocore's exception class (with the
    service-specific classes derived from it, told apart by the error
    response they carry); the next four are the builtin errors the
    operations on values raise; [OtherException] is any exception class
    outside the [ClientError] hierarchy, named by its class. *)
Inductive exn : Type :=
| ClientError (error_response : value) (operation_name : string)
| KeyError (key : value)
| IndexError
| AttributeError (attr : string)
| TypeError (what : string)
| OtherException (class_name : string) (args : list value).

(** What [except ClientError] matches. *)
Definition is_ClientError (e : exn) : bool :=
  match e with
  | ClientError _ _ => true
  | _ => false
  end.

Inductive result (A : Type) : Type :=
| Return (a : A)
| Raise (e : exn).
Arguments Return {A} a.
Arguments Raise {A} e.

Definition rbind {A B} (r : result A) (k : A -> result B) : result B :=
  match r with
  | Return a => k a
  | Raise e => Raise e
  end.

Declare Scope py_scope.
Delimit Scope py_scope with py.
Notation "'let*' x ':=' r 'in' k" := (rbind r (fun x => k))
  (at level 10, x name, r at level 100, k at level 200) : py_scope.

(** ** Operations on values *)

Fixpoint dict_get (k : string) (d : list (string * value)) : option value :=
  match d with
  | [] => None
  | (k', v) :: rest => if String.eqb k k' then Some v else dict_get k rest
  end.

(** [v[k]] for a string key [k]. *)
Definition getitem (v : value) (k : string) : result value :=
  match v with
  | VDict d =>
      match dict_get k d with
      | Some x => Return x
      | None => Raise (KeyError (VStr k))
      end
  | VList _ => Raise (TypeError "list indices must be integers or slices, not str")
  | VStr _ => Raise (TypeError "string indices must be integers")
  | _ => Raise (TypeError "object is not subscriptable")
  end.

(** [v[i]] for a non-negative integer index [i]. *)
Definition getitem_index (v : value) (i : nat) : result value :=
  match v with
  | VList l =>
      match nth_error l i with
      | Some x => Return x
      | None => Raise IndexError
      end
  | VStr s =>
      match String.get i s with
      | Some c => Return (VStr (String c EmptyString))
      | None => Raise IndexError
      end
  | VDict _ => Raise (KeyError (VInt (Z.of_nat i)))
  | _ => Raise (TypeError "object is not subscriptable")
  end.

(** [v.name].  Only instances carry attributes here: none of the builtin
    types has an attribute called [id] or [name], the two the module reads. *)
Definition getattr (v : value) (name : string) : result value :=
  match v with
  | VObject attrs =>
      match dict_get name attrs with
      | Some x => Return x
      | None => Raise (AttributeError name)
      end
  | _ => Raise (AttributeError name)
  end.

(** The items [for x in v] and [*v] run through. *)
Definition iterate (v : value) : result (list value) :=
  match v with
  | VList l => Return l
  | VStr s => Return (map (fun c => VStr (String c EmptyString)) (list_ascii_of_string s))
  | VDict d => Return (map (fun kv => VStr (fst kv)) d)
  | _ => Raise (TypeError "object is not iterable")
  end.

(** [len(v)]. *)
Definition len (v : value) : result value :=
  match v with
  | VList l => Return (VInt (Z.of_nat (List.length l)))
  | VStr s => Return (VInt (Z.of_nat (String.length s)))
  | VDict d => Return (VInt (Z.of_nat (List.length d)))
  | _ => Raise (TypeError "object has no len()")
  end.

(** A list comprehension [[f x for x in xs]]: left to right, stopping at
    the first item on which [f] raises. *)
Fixpoint comprehension (f : value -> result value) (xs : list value)
  : result (list value) :=
  match xs with
  | [] => Return []
  | x :: rest =>
      (let* y := f x in
       let* ys := comprehension f rest in
       Return (y :: ys))%py
  end.

(** ** Effects: the logger and the client *)

Inductive level : Type := INFO | ERROR.

(** A record emitted on [logger]: the format string and its arguments as
    they were passed, and for [logger.exception] the exception being
    handled. *)
Record log_record : Type := mk_record {
  levelname : level;
  msg : string;
  args : list value;
  exc_info : option exn
}.

(** The six client methods the module calls. *)
Inductive method : Type :=
| m_run_job_flow
| m_describe_cluster
| m_terminate_job_flows
| m_add_job_flow_steps
| m_list_steps
| m_describe_step.

Definition kwargs : Type := list (string * value).

(** The Boto3 EMR client, as far as the module can see it: what each method
    answers to the keyword arguments it is called with. *)
Definition client : Type := method -> kwargs -> result value.

(** Everything outside a call that the module can touch: the records
    emitted so far on [logger] and the calls made so far on clients. *)
Record world : Type := mk_world {
  records : list log_record;
  requests : list (method * kwargs)
}.

Definition action (A : Type) : Type := world -> result A * world.

Definition ret {A} (a : A) : action A := fun w => (Return a, w).

Definition bind {A B} (m : action A) (k : A -> action B) : action B :=
  fun w =>
    match m w with
    | (Return a, w') => k a w'
    | (Raise e, w') => (Raise e, w')
    end.

Notation "x <- m ;; k" := (bind m (fun x => k))
  (at level 61, m at next level, right associativity) : py_scope.
Notation "m ;; k" := (bind m (fun _ => k))
  (at level 61, right associativity) : py_scope.

Definition lift {A} (r : result A) : action A := fun w => (r, w).

Definition call (emr_client : client) (m : method) (kw : kwargs) : action value :=
  fun w =>
    (emr_client m kw,
     mk_world (records w) (requests w ++ [(m, kw)])).

Definition emit (r : log_record) : action unit :=
  fun w => (Return tt, mk_world (records w ++ [r]) (requests w)).

Definition logger_info (fmt : string) (a : list value) : action unit :=
  emit (mk_record INFO fmt a None).

(** [logger.exception] logs at level ERROR with the exception being handled
    attached. *)
Definition logger_exception (e : exn) (fmt : string) (a : list value) : action unit :=
  emit (mk_record ERROR fmt a (Some e)).

(** [try: body / except ClientError: handler; raise / else: orelse].  The
    handler sees the exception being handled; the bare [raise] that ends it
    re-raises that same exception.  Exceptions outside [ClientError] are not
    handled, and neither are those of the [else] clause. *)
Definition try_except_ClientError {A B}
    (body : action A) (handler : exn -> action unit) (orelse : A -> action B)
  : action B :=
  fun w =>
    match body w with
    | (Return a, w') => orelse a w'
    | (Raise e, w') =>
        if is_ClientError e then
          match handler e w' with
          | (Return _, w'') => (Raise e, w'')
          | (Raise e', w'') => (Raise e', w'')
          end
        else (Raise e, w')
    end.

(** ** The six functions *)

Local Open Scope py_scope.

(** The [HadoopJarStep] literal shared by [run_job_flow] and [add_step]:
    [script_args] is unpacked with [*] after the four leading items. *)
Definition spark_step (name script_uri : value) (script_args : list value) : value :=
  VDict
    [ ("Name", name);
      ("ActionOnFailure", VStr "CONTINUE");
      ("HadoopJarStep",
        VDict
          [ ("Jar", VStr "command-runner.jar");
            ("Args",
              VList
                (VStr "spark-submit" :: VStr "--deploy-mode" :: VStr "cluster"
                   :: script_uri :: script_args)) ]) ].

(** One item of the [Steps] comprehension of [run_job_flow]. *)
Definition step_entry (step : value) : result value :=
  let* name := getitem step "name" in
  let* script_uri := getitem step "script_uri" in
  let* script_args := getitem step "script_args" in
  let* unpacked := iterate script_args in
  Return (spark_step name script_uri unpacked).

(** One item of the [Applications] comprehension. *)
Definition application_entry (app : value) : result value :=
  Return (VDict [("Name", app)]).

(** The keyword arguments of [emr_client.run_job_flow(...)], evaluated in
    the order they are written. *)
Definition run_job_flow_kwargs
    (name log_uri keep_alive applications job_flow_role service_role
       security_groups steps : value) : result kwargs :=
  let* manager := getitem security_groups "manager" in
  let* manager_id := getattr manager "id" in
  let* worker := getitem security_groups "worker" in
  let* worker_id := getattr worker "id" in
  let* step_items := iterate steps in
  let* step_entries := comprehension step_entry step_items in
  let* app_items := iterate applications in
  let* app_entries := comprehension application_entry app_items in
  let* job_flow_role_name := getattr job_flow_role "name" in
  let* service_role_name := getattr service_role "name" in
  Return
    [ ("Name", name);
      ("LogUri", log_uri);
      ("ReleaseLabel", VStr "emr-5.30.1");
      ("Instances",
        VDict
          [ ("MasterInstanceType", VStr "m5.xlarge");
            ("SlaveInstanceType", VStr "m5.xlarge");
            ("InstanceCount", VInt 3);
            ("KeepJobFlowAliveWhenNoSteps", keep_alive);
            ("EmrManagedMasterSecurityGroup", manager_id);
            ("EmrManagedSlaveSecurityGroup", worker_id) ]);
      ("Steps", VList step_entries);
      ("Applications", VList app_entries);
      ("JobFlowRole", job_flow_role_name);
      ("ServiceRole", service_role_name);
      ("EbsRootVolumeSize", VInt 10);
      ("VisibleToAllUsers", VBool true) ].

Definition run_job_flow
    (name log_uri keep_alive applications job_flow_role service_role
       security_groups steps : value) (emr_client : client) : action value :=
  try_except_ClientError
    (kw <- lift (run_job_flow_kwargs name log_uri keep_alive applications
                   job_flow_role service_role security_groups steps) ;;
     response <- call emr_client m_run_job_flow kw ;;
     cluster_id <- lift (getitem response "JobFlowId") ;;
     logger_info "Created cluster %s." [cluster_id] ;;
     ret cluster_id)
    (fun e => logger_exception e "Couldn't create cluster." [])
    (fun cluster_id => ret cluster_id).

Definition describe_cluster (cluster_id : value) (emr_client : client) : action value :=
  try_except_ClientError
    (response <- call emr_client m_describe_cluster [("ClusterId", cluster_id)] ;;
     cluster <- lift (getitem response "Cluster") ;;
     cluster_name <- lift (getitem cluster "Name") ;;
     logger_info "Got data for cluster %s." [cluster_name] ;;
     ret cluster)
    (fun e => logger_exception e "Couldn't get data for cluster %s." [cluster_id])
    (fun cluster => ret cluster).

(** No [else] clause and no [return]: the function falls off its end and
    yields [None]. *)
Definition terminate_cluster (cluster_id : value) (emr_client : client) : action value :=
  try_except_ClientError
    (call emr_client m_terminate_job_flows [("JobFlowIds", VList [cluster_id])] ;;
     logger_info "Terminated cluster %s." [cluster_id])
    (fun e => logger_exception e "Couldn't terminate cluster %s." [cluster_id])
    (fun _ => ret tt) ;;
  ret VNone.

(** The keyword arguments of [emr_client.add_job_flow_steps(...)]. *)
Definition add_step_kwargs (cluster_id name script_uri script_args : value)
  : result kwargs :=
  let* unpacked := iterate script_args in
  Return
    [ ("JobFlowId", cluster_id);
      ("Steps", VList [spark_step name script_uri unpacked]) ].

Definition add_step (cluster_id name script_uri script_args : value)
    (emr_client : client) : action value :=
  try_except_ClientError
    (kw <- lift (add_step_kwargs cluster_id name script_uri script_args) ;;
     response <- call emr_client m_add_job_flow_steps kw ;;
     step_ids <- lift (getitem response "StepIds") ;;
     step_id <- lift (getitem_index step_ids 0) ;;
     logger_info "Started step with ID %s" [step_id] ;;
     ret step_id)
    (fun e => logger_exception e "Couldn't start step %s with URI %s." [name; script_uri])
    (fun step_id => ret step_id).

Definition list_steps (cluster_id : value) (emr_client : client) : action value :=
  try_except_ClientError
    (response <- call emr_client m_list_steps [("ClusterId", cluster_id)] ;;
     steps <- lift (getitem response "Steps") ;;
     n <- lift (len steps) ;;
     logger_info "Got %s steps for cluster %s." [n; cluster_id] ;;
     ret steps)
    (fun e => logger_exception e "Couldn't get steps for cluster %s." [cluster_id])
    (fun steps => ret steps).

Definition describe_step (cluster_id step_id : value) (emr_client : client) : action value :=
  try_except_ClientError
    (response <-
       call emr_client m_describe_step [("ClusterId", cluster_id); ("StepId", step_id)] ;;
     step <- lift (getitem response "Step") ;;
     logger_info "Got data for step %s." [step_id] ;;
     ret step)
    (fun e => logger_exception e "Couldn't get data for step %s." [step_id])
    (fun step => ret step).

(** ** Calls of the module, taken together *)

(** One of the six functions applied to its arguments: what a caller writes,
    the client apart. *)
Inductive invocation : Type :=
| RunJobFlow (name log_uri keep_alive applications job_flow_role service_role
                security_groups steps : value)
| DescribeCluster (cluster_id : value)
| TerminateCluster (cluster_id : value)
| AddStep (cluster_id name script_uri script_args : value)
| ListSteps (cluster_id : value)
| DescribeStep (cluster_id step_id : value).

Definition invoke (i : invocation) (emr_client : client) : action value :=
  match i with
  | RunJobFlow name log_uri keep_alive applications job_flow_role service_role
      security_groups steps =>
      run_job_flow name log_uri keep_alive applications job_flow_role service_role
        security_groups steps emr_client
  | DescribeCluster cluster_id => describe_cluster cluster_id emr_client
  | TerminateCluster cluster_id => terminate_cluster cluster_id emr_client
  | AddStep cluster_id name script_uri script_args =>
      add_step cluster_id name script_uri script_args emr_client
  | ListSteps cluster_id => list_steps cluster_id emr_client
  | DescribeStep cluster_id step_id => describe_step cluster_id step_id emr_client
  end.

(** The client method each function calls. *)
Definition method_of (i : invocation) : method :=
  match i with
  | RunJobFlow _ _ _ _ _ _ _ _ => m_run_job_flow
  | DescribeCluster _ => m_describe_cluster
  | TerminateCluster _ => m_terminate_job_flows
  | AddStep _ _ _ _ => m_add_job_flow_steps
  | ListSteps _ => m_list_steps
  | DescribeStep _ _ => m_describe_step
  end.

(** The record each [except ClientError] clause emits for the exception it
    handles. *)
Definition failure_record (i : invocation) (e : exn) : log_record :=
  match i with
  | RunJobFlow _ _ _ _ _ _ _ _ =>
      mk_record ERROR "Couldn't create cluster." [] (Some e)
  | DescribeCluster cluster_id =>
      mk_record ERROR "Couldn't get data for cluster %s." [cluster_id] (Some e)
  | TerminateCluster cluster_id =>
      mk_record ERROR "Couldn't terminate cluster %s." [cluster_id] (Some e)
  | AddStep _ name script_uri _ =>
      mk_record ERROR "Couldn't start step %s with URI %s." [name; script_uri] (Some e)
  | ListSteps cluster_id =>
      mk_record ERROR "Couldn't get steps for cluster %s." [cluster_id] (Some e)
  | DescribeStep _ step_id =>
      mk_record ERROR "Couldn't get data for step %s." [step_id] (Some e)
  end.

(** Running [a] from [w] makes exactly one client call, method [m] with
    keyword arguments [kw]. *)
Definition sends {A} (a : action A) (w : world) (m : method) (kw : kwargs) : Prop :=
  requests (snd (a w)) = requests w ++ [(m, kw)].

(** The world before any call of the module. *)
Definition fresh : world := mk_world [] [].

(** The keyword arguments each function hands to its client method. *)
Definition request_of (i : invocation) : result kwargs :=
  match i with
  | RunJobFlow name log_uri keep_alive applications job_flow_role service_role
      security_groups steps =>
      run_job_flow_kwargs name log_uri keep_alive applications job_flow_role
        service_role security_groups steps
  | DescribeCluster cluster_id => Return [("ClusterId", cluster_id)]
  | TerminateCluster cluster_id => Return [("JobFlowIds", VList [cluster_id])]
  | AddStep cluster_id name script_uri script_args =>
      add_step_kwargs cluster_id name script_uri script_args
  | ListSteps cluster_id => Return [("ClusterId", cluster_id)]
  | DescribeStep cluster_id step_id =>
      Return [("ClusterId", cluster_id); ("StepId", step_id)]
  end.

(** What follows the client call in each [try] body: the value the function
    goes on to return and the record [logger.info] emits. *)
Definition on_success (i : invocation) (response : value)
  : result (value * log_record) :=
  match i with
  | RunJobFlow _ _ _ _ _ _ _ _ =>
      let* cluster_id := getitem response "JobFlowId" in
      Return (cluster_id, mk_record INFO "Created cluster %s." [cluster_id] None)
  | DescribeCluster _ =>
      let* cluster := getitem response "Cluster" in
      let* cluster_name := getitem cluster "Name" in
      Return (cluster, mk_record INFO "Got data for cluster %s." [cluster_name] None)
  | TerminateCluster cluster_id =>
      Return (VNone, mk_record INFO "Terminated cluster %s." [cluster_id] None)
  | AddStep _ _ _ _ =>
      let* step_ids := getitem response "StepIds" in
      let* step_id := getitem_index step_ids 0 in
      Return (step_id, mk_record INFO "Started step with ID %s" [step_id] None)
  | ListSteps cluster_id =>
      let* steps := getitem response "Steps" in
      let* n := len steps in
      Return (steps, mk_record INFO "Got %s steps for cluster %s." [n; cluster_id] None)
  | DescribeStep _ step_id =>
      let* step := getitem response "Step" in
      Return (step, mk_record INFO "Got data for step %s." [step_id] None)
  end.

(** ** The shape [run_job_flow] needs of its inputs *)

(** [v] is a mapping that holds [x] under key [k]. *)
Definition maps_to (v : value) (k : string) (x : value) : Prop :=
  exists d, v = VDict d /\ dict_get k d = Some x.

(** [v] is an object whose attribute [a] is [x]. *)
Definition exposes (v : value) (a : string) (x : value) : Prop :=
  exists attrs, v = VObject attrs /\ dict_get a attrs = Some x.

(** [step] is a mapping with the three keys of a step. *)
Definition step_shape (step : value) : Prop :=
  (exists x, maps_to step "name" x) /\
  (exists x, maps_to step "script_uri" x) /\
  (exists x, maps_to step "script_args" x).

(** The shape of the inputs of [run_job_flow]: [security_groups] maps
    [manager] and [worker] to objects with an [id], the two roles have a
    [name], every item of [steps] has the shape of a step.  The four last
    arguments name the ids and names found. *)
Definition input_shape
    (job_flow_role service_role security_groups steps : value)
    (manager_id worker_id job_flow_role_name service_role_name : value) : Prop :=
  (exists manager,
     maps_to security_groups "manager" manager /\ exposes manager "id" manager_id) /\
  (exists worker,
     maps_to security_groups "worker" worker /\ exposes worker "id" worker_id) /\
  exposes job_flow_role "name" job_flow_role_name /\
  exposes service_role "name" service_role_name /\
  (forall items, iterate steps = Return items -> Forall step_shape items).

(** [step] can be turned into a request entry: it has the three keys of a
    step and what it holds under [script_args] can be unpacked. *)
Definition step_ready (step : value) : Prop :=
  exists step_name script_uri script_args unpacked,
    maps_to step "name" step_name /\
    maps_to step "script_uri" script_uri /\
    maps_to step "script_args" script_args /\
    iterate script_args = Return unpacked.

(** ** Example inputs *)

Definition example_security_groups : value :=
  VDict
    [ ("manager", VObject [("id", VStr "sg-manager")]);
      ("worker", VObject [("id", VStr "sg-worker")]) ].

Definition example_job_flow_role : value := VObject [("name", VStr "emr-ec2-role")].

Definition example_service_role : value := VObject [("name", VStr "emr-service-role")].

Definition example_step : value :=
  VDict
    [ ("name", VStr "X");
      ("script_uri", VStr "s3://b/s.py");
      ("script_args", VList [VStr "--a"; VStr "1"]) ].

(** A client whose six methods all answer with a well-formed response. *)
Definition example_client : client :=
  fun m _ =>
    match m with
    | m_run_job_flow => Return (VDict [("JobFlowId", VStr "j-ABC")])
    | m_describe_cluster =>
        Return (VDict [("Cluster", VDict [("Id", VStr "j-ABC"); ("Name", VStr "demo")])])
    | m_terminate_job_flows => Return (VDict [])
    | m_add_job_flow_steps => Return (VDict [("StepIds", VList [VStr "s-1"])])
    | m_list_steps => Return (VDict [("Steps", VList [])])
    | m_describe_step => Return (VDict [("Step", VDict [("Id", VStr "s-1")])])
    end.

(** A client that answers every call with a response whose [Cluster] record
    carries an [Id] and no [Name]. *)
Definition client_without_Name : client :=
  fun _ _ => Return (VDict [("Cluster", VDict [("Id", VStr "j-ABC")])]).

(** A client whose every call raises [e]. *)
Definition raising_client (e : exn) : client := fun _ _ => Raise e.

(** The request [run_job_flow] builds from the example inputs with the one
    example step. *)
Definition example_run_job_flow_request : kwargs :=
  [ ("Name", VStr "demo");
    ("LogUri", VStr "s3://logs");
    ("ReleaseLabel", VStr "emr-5.30.1");
    ("Instances",
      VDict
        [ ("MasterInstanceType", VStr "m5.xlarge");
          ("SlaveInstanceType", VStr "m5.xlarge");
          ("InstanceCount", VInt 3);
          ("KeepJobFlowAliveWhenNoSteps", VBool true);
          ("EmrManagedMasterSecurityGroup", VStr "sg-manager");
          ("EmrManagedSlaveSecurityGroup", VStr "sg-worker") ]);
    ("Steps",
      VList
        [ VDict
            [ ("Name", VStr "X");
              ("ActionOnFailure", VStr "CONTINUE");
              ("HadoopJarStep",
                VDict
                  [ ("Jar", VStr "command-runner.jar");
                    ("Args",
                      VList
                        [ VStr "spark-submit"; VStr "--deploy-mode"; VStr "cluster";
                          VStr "s3://b/s.py"; VStr "--a"; VStr "1" ]) ]) ] ]);
    ("Applications", VList [VDict [("Name", VStr "Spark")]]);
    ("JobFlowRole", VStr "emr-ec2-role");
    ("ServiceRole", VStr "emr-service-role");
    ("EbsRootVolumeSize", VInt 10);
    ("VisibleToAllUsers", VBool true) ].

(** ** Proof automation *)

(** Unfolds the monad down to pairs of a result and a world. *)
Ltac unfold_action :=
  unfold try_except_ClientError, bind, lift, call, ret,
    logger_info, logger_exception, emit; simpl.

(** ** The operations on values never raise [ClientError] *)

Lemma getitem_raises v k e :
  getitem v k = Raise e -> is_ClientError e = false.
Proof.
  destruct v; simpl; try (intros H; inversion H; reflexivity).
  destruct (dict_get k entries); intros H; inversion H; reflexivity.
Qed.

Lemma getitem_index_raises v i e :
  getitem_index v i = Raise e -> is_ClientError e = false.
Proof.
  destruct v; simpl; try (intros H; inversion H; reflexivity).
  - destruct (String.get i s); intros H; inversion H; reflexivity.
  - destruct (nth_error items i); intros H; inversion H; reflexivity.
Qed.

Lemma getattr_raises v a e :
  getattr v a = Raise e -> is_ClientError e = false.
Proof.
  destruct v; simpl; try (intros H; inversion H; reflexivity).
  destruct (dict_get a attrs); intros H; inversion H; reflexivity.
Qed.

Lemma iterate_raises v e :
  iterate v = Raise e -> is_ClientError e = false.
Proof.
  destruct v; simpl; intros H; inversion H; reflexivity.
Qed.

Lemma len_raises v e :
  len v = Raise e -> is_ClientError e = false.
Proof.
  destruct v; simpl; intros H; inversion H; reflexivity.
Qed.

Lemma rbind_Return {A B} (r : result A) (k : A -> result B) b :
  rbind r k = Return b -> exists a, r = Return a /\ k a = Return b.
Proof.
  destruct r as [a|e]; simpl; intros H; [eauto | discriminate].
Qed.

Lemma rbind_Raise {A B} (r : result A) (k : A -> result B) e :
  rbind r k = Raise e -> r = Raise e \/ exists a, r = Return a /\ k a = Raise e.
Proof.
  destruct r as [a|e']; simpl; intros H; [right; eauto | left; congruence].
Qed.

Lemma comprehension_raises f xs e :
  (forall x e', f x = Raise e' -> is_ClientError e' = false) ->
  comprehension f xs = Raise e -> is_ClientError e = false.
Proof.
  intros Hf. induction xs as [|x rest IH]; simpl; intros H.
  - discriminate.
  - apply rbind_Raise in H. destruct H as [H | [y [_ H]]].
    + eauto.
    + apply rbind_Raise in H. destruct H as [H | [ys [_ H]]]; [auto | discriminate].
Qed.

Lemma step_entry_raises step e :
  step_entry step = Raise e -> is_ClientError e = false.
Proof.
  unfold step_entry. intros H.
  apply rbind_Raise in H. destruct H as [H | [nm [_ H]]].
  { eapply getitem_raises; eauto. }
  apply rbind_Raise in H. destruct H as [H | [uri [_ H]]].
  { eapply getitem_raises; eauto. }
  apply rbind_Raise in H. destruct H as [H | [sargs [_ H]]].
  { eapply getitem_raises; eauto. }
  apply rbind_Raise in H. destruct H as [H | [un [_ H]]].
  { eapply iterate_raises; eauto. }
  discriminate.
Qed.

Lemma run_job_flow_kwargs_raises
    name log_uri keep_alive applications job_flow_role service_role
    security_groups steps e :
  run_job_flow_kwargs name log_uri keep_alive applications job_flow_role
    service_role security_groups steps = Raise e ->
  is_ClientError e = false.
Proof.
  unfold run_job_flow_kwargs. intros H.
  apply rbind_Raise in H. destruct H as [H | [m [_ H]]].
  { eapply getitem_raises; eauto. }
  apply rbind_Raise in H. destruct H as [H | [mid [_ H]]].
  { eapply getattr_raises; eauto. }
  apply rbind_Raise in H. destruct H as [H | [wk [_ H]]].
  { eapply getitem_raises; eauto. }
  apply rbind_Raise in H. destruct H as [H | [wid [_ H]]].
  { eapply getattr_raises; eauto. }
  apply rbind_Raise in H. destruct H as [H | [items [_ H]]].
  { eapply iterate_raises; eauto. }
  apply rbind_Raise in H. destruct H as [H | [entries [_ H]]].
  { eapply comprehension_raises; [apply step_entry_raises | eauto]. }
  apply rbind_Raise in H. destruct H as [H | [apps [_ H]]].
  { eapply iterate_raises; eauto. }
  apply rbind_Raise in H. destruct H as [H | [app_entries [_ H]]].
  { eapply comprehension_raises; [| eauto].
    intros x e' Hx. discriminate Hx. }
  apply rbind_Raise in H. destruct H as [H | [jn [_ H]]].
  { eapply getattr_raises; eauto. }
  apply rbind_Raise in H. destruct H as [H | [sn [_ H]]].
  { eapply getattr_raises; eauto. }
  discriminate.
Qed.

Lemma add_step_kwargs_raises cluster_id name script_uri script_args e :
  add_step_kwargs cluster_id name script_uri script_args = Raise e ->
  is_ClientError e = false.
Proof.
  unfold add_step_kwargs. intros H.
  apply rbind_Raise in H. destruct H as [H | [un [_ H]]].
  - eapply iterate_raises; eauto.
  - discriminate.
Qed.

(** ** What each function does, case by case *)

Lemma run_job_flow_run
    name log_uri keep_alive applications job_flow_role service_role
    security_groups steps emr_client w :
  run_job_flow name log_uri keep_alive applications job_flow_role service_role
    security_groups steps emr_client w =
  match run_job_flow_kwargs name log_uri keep_alive applications job_flow_role
          service_role security_groups steps with
  | Raise e => (Raise e, w)
  | Return kw =>
      let sent := requests w ++ [(m_run_job_flow, kw)] in
      match emr_client m_run_job_flow kw with
      | Raise e =>
          if is_ClientError e
          then (Raise e,
                mk_world
                  (records w ++ [mk_record ERROR "Couldn't create cluster." [] (Some e)])
                  sent)
          else (Raise e, mk_world (records w) sent)
      | Return response =>
          match getitem response "JobFlowId" with
          | Raise e => (Raise e, mk_world (records w) sent)
          | Return cluster_id =>
              (Return cluster_id,
               mk_world
                 (records w ++ [mk_record INFO "Created cluster %s." [cluster_id] None])
                 sent)
          end
      end
  end.
Proof.
  unfold run_job_flow. unfold_action.
  destruct (run_job_flow_kwargs _ _ _ _ _ _ _ _) as [kw|e] eqn:Hkw.
  - destruct (emr_client m_run_job_flow kw) as [response|e]; simpl.
    + destruct (getitem response "JobFlowId") as [cluster_id|e] eqn:Hid; simpl.
      * reflexivity.
      * rewrite (getitem_raises _ _ _ Hid). reflexivity.
    + destruct (is_ClientError e); reflexivity.
  - rewrite (run_job_flow_kwargs_raises _ _ _ _ _ _ _ _ _ Hkw). reflexivity.
Qed.

Lemma describe_cluster_run cluster_id emr_client w :
  describe_cluster cluster_id emr_client w =
  let sent := requests w ++ [(m_describe_cluster, [("ClusterId", cluster_id)])] in
  match emr_client m_describe_cluster [("ClusterId", cluster_id)] with
  | Raise e =>
      if is_ClientError e
      then (Raise e,
            mk_world
              (records w ++
                 [mk_record ERROR "Couldn't get data for cluster %s." [cluster_id] (Some e)])
              sent)
      else (Raise e, mk_world (records w) sent)
  | Return response =>
      match getitem response "Cluster" with
      | Raise e => (Raise e, mk_world (records w) sent)
      | Return cluster =>
          match getitem cluster "Name" with
          | Raise e => (Raise e, mk_world (records w) sent)
          | Return cluster_name =>
              (Return cluster,
               mk_world
                 (records w ++
                    [mk_record INFO "Got data for cluster %s." [cluster_name] None])
                 sent)
          end
      end
  end.
Proof.
  unfold describe_cluster. unfold_action.
  destruct (emr_client m_describe_cluster _) as [response|e]; simpl.
  - destruct (getitem response "Cluster") as [cluster|e] eqn:Hc; simpl.
    + destruct (getitem cluster "Name") as [cluster_name|e] eqn:Hn; simpl.
      * reflexivity.
      * rewrite (getitem_raises _ _ _ Hn). reflexivity.
    + rewrite (getitem_raises _ _ _ Hc). reflexivity.
  - destruct (is_ClientError e); reflexivity.
Qed.

Lemma terminate_cluster_run cluster_id emr_client w :
  terminate_cluster cluster_id emr_client w =
  let sent :=
    requests w ++ [(m_terminate_job_flows, [("JobFlowIds", VList [cluster_id])])] in
  match emr_client m_terminate_job_flows [("JobFlowIds", VList [cluster_id])] with
  | Raise e =>
      if is_ClientError e
      then (Raise e,
            mk_world
              (records w ++
                 [mk_record ERROR "Couldn't terminate cluster %s." [cluster_id] (Some e)])
              sent)
      else (Raise e, mk_world (records w) sent)
  | Return _ =>
      (Return VNone,
       mk_world
         (records w ++ [mk_record INFO "Terminated cluster %s." [cluster_id] None])
         sent)
  end.
Proof.
  unfold terminate_cluster. unfold_action.
  destruct (emr_client m_terminate_job_flows _) as [response|e]; simpl.
  - reflexivity.
  - destruct (is_ClientError e); reflexivity.
Qed.

Lemma add_step_run cluster_id name script_uri script_args emr_client w :
  add_step cluster_id name script_uri script_args emr_client w =
  match add_step_kwargs cluster_id name script_uri script_args with
  | Raise e => (Raise e, w)
  | Return kw =>
      let sent := requests w ++ [(m_add_job_flow_steps, kw)] in
      match emr_client m_add_job_flow_steps kw with
      | Raise e =>
          if is_ClientError e
          then (Raise e,
                mk_world
                  (records w ++
                     [mk_record ERROR "Couldn't start step %s with URI %s."
                        [name; script_uri] (Some e)])
                  sent)
          else (Raise e, mk_world (records w) sent)
      | Return response =>
          match getitem response "StepIds" with
          | Raise e => (Raise e, mk_world (records w) sent)
          | Return step_ids =>
              match getitem_index step_ids 0 with
              | Raise e => (Raise e, mk_world (records w) sent)
              | Return step_id =>
                  (Return step_id,
                   mk_world
                     (records w ++
                        [mk_record INFO "Started step with ID %s" [step_id] None])
                     sent)
              end
          end
      end
  end.
Proof.
  unfold add_step. unfold_action.
  destruct (add_step_kwargs _ _ _ _) as [kw|e] eqn:Hkw.
  - destruct (emr_client m_add_job_flow_steps kw) as [response|e]; simpl.
    + destruct (getitem response "StepIds") as [step_ids|e] eqn:Hids; simpl.
      * destruct (getitem_index step_ids 0) as [step_id|e] eqn:Hid; simpl.
        -- reflexivity.
        -- rewrite (getitem_index_raises _ _ _ Hid). reflexivity.
      * rewrite (getitem_raises _ _ _ Hids). reflexivity.
    + destruct (is_ClientError e); reflexivity.
  - rewrite (add_step_kwargs_raises _ _ _ _ _ Hkw). reflexivity.
Qed.

Lemma list_steps_run cluster_id emr_client w :
  list_steps cluster_id emr_client w =
  let sent := requests w ++ [(m_list_steps, [("ClusterId", cluster_id)])] in
  match emr_client m_list_steps [("ClusterId", cluster_id)] with
  | Raise e =>
      if is_ClientError e
      then (Raise e,
            mk_world
              (records w ++
                 [mk_record ERROR "Couldn't get steps for cluster %s." [cluster_id] (Some e)])
              sent)
      else (Raise e, mk_world (records w) sent)
  | Return response =>
      match getitem response "Steps" with
      | Raise e => (Raise e, mk_world (records w) sent)
      | Return steps =>
          match len steps with
          | Raise e => (Raise e, mk_world (records w) sent)
          | Return n =>
              (Return steps,
               mk_world
                 (records w ++
                    [mk_record INFO "Got %s steps for cluster %s." [n; cluster_id] None])
                 sent)
          end
      end
  end.
Proof.
  unfold list_steps. unfold_action.
  destruct (emr_client m_list_steps _) as [response|e]; simpl.
  - destruct (getitem response "Steps") as [steps|e] eqn:Hs; simpl.
    + destruct (len steps) as [n|e] eqn:Hn; simpl.
      * reflexivity.
      * rewrite (len_raises _ _ Hn). reflexivity.
    + rewrite (getitem_raises _ _ _ Hs). reflexivity.
  - destruct (is_ClientError e); reflexivity.
Qed.

Lemma describe_step_run cluster_id step_id emr_client w :
  describe_step cluster_id step_id emr_client w =
  let kw := [("ClusterId", cluster_id); ("StepId", step_id)] in
  let sent := requests w ++ [(m_describe_step, kw)] in
  match emr_client m_describe_step kw with
  | Raise e =>
      if is_ClientError e
      then (Raise e,
            mk_world
              (records w ++
                 [mk_record ERROR "Couldn't get data for step %s." [step_id] (Some e)])
              sent)
      else (Raise e, mk_world (records w) sent)
  | Return response =>
      match getitem response "Step" with
      | Raise e => (Raise e, mk_world (records w) sent)
      | Return step =>
          (Return step,
           mk_world
             (records w ++ [mk_record INFO "Got data for step %s." [step_id] None])
             sent)
      end
  end.
Proof.
  unfold describe_step. unfold_action.
  destruct (emr_client m_describe_step _) as [response|e]; simpl.
  - destruct (getitem response "Step") as [step|e] eqn:Hs; simpl.
    + reflexivity.
    + rewrite (getitem_raises _ _ _ Hs). reflexivity.
  - destruct (is_ClientError e); reflexivity.
Qed.

(** ** One shape for the six functions *)

(** Every function is: build the request or raise; call the client; on a
    [ClientError] log and re-raise, on another exception just propagate; on
    a response, unwrap and log, or propagate what unwrapping raises. *)
Lemma invoke_run i emr_client w :
  invoke i emr_client w =
  match request_of i with
  | Raise e => (Raise e, w)
  | Return kw =>
      let sent := requests w ++ [(method_of i, kw)] in
      match emr_client (method_of i) kw with
      | Raise e =>
          if is_ClientError e
          then (Raise e, mk_world (records w ++ [failure_record i e]) sent)
          else (Raise e, mk_world (records w) sent)
      | Return response =>
          match on_success i response with
          | Raise e => (Raise e, mk_world (records w) sent)
          | Return (v, r) => (Return v, mk_world (records w ++ [r]) sent)
          end
      end
  end.
Proof.
  destruct i; simpl.
  - rewrite run_job_flow_run.
    destruct (run_job_flow_kwargs _ _ _ _ _ _ _ _) as [kw|e]; [|reflexivity].
    simpl. destruct (emr_client m_run_job_flow kw) as [response|e]; [|reflexivity].
    destruct (getitem response "JobFlowId"); reflexivity.
  - rewrite describe_cluster_run. simpl.
    destruct (emr_client m_describe_cluster _) as [response|e]; [|reflexivity].
    destruct (getitem response "Cluster") as [cluster|e]; [|reflexivity].
    simpl. destruct (getitem cluster "Name"); reflexivity.
  - rewrite terminate_cluster_run. simpl.
    destruct (emr_client m_terminate_job_flows _); reflexivity.
  - rewrite add_step_run.
    destruct (add_step_kwargs _ _ _ _) as [kw|e]; [|reflexivity].
    simpl. destruct (emr_client m_add_job_flow_steps kw) as [response|e]; [|reflexivity].
    destruct (getitem response "StepIds") as [step_ids|e]; [|reflexivity].
    simpl. destruct (getitem_index step_ids 0); reflexivity.
  - rewrite list_steps_run. simpl.
    destruct (emr_client m_list_steps _) as [response|e]; [|reflexivity].
    destruct (getitem response "Steps") as [steps|e]; [|reflexivity].
    simpl. destruct (len steps); reflexivity.
  - rewrite describe_step_run. simpl.
    destruct (emr_client m_describe_step _) as [response|e]; [|reflexivity].
    destruct (getitem response "Step"); reflexivity.
Qed.

Lemma request_of_raises i e :
  request_of i = Raise e -> is_ClientError e = false.
Proof.
  destruct i; simpl; try discriminate.
  - apply run_job_flow_kwargs_raises.
  - apply add_step_kwargs_raises.
Qed.

Lemma on_success_raises i response e :
  on_success i response = Raise e -> is_ClientError e = false.
Proof.
  destruct i; simpl; intros H; try discriminate;
    repeat
      (apply rbind_Raise in H;
       destruct H as [H | [? [_ H]]];
       [ first [ eapply getitem_raises; eassumption
               | eapply getitem_index_raises; eassumption
               | eapply len_raises; eassumption ]
       | ]);
    discriminate.
Qed.

Lemma app_one_neq {A} (l : list A) (x : A) : l <> l ++ [x].
Proof.
  intros H. apply (f_equal (@List.length A)) in H.
  rewrite length_app in H. simpl in H. lia.
Qed.

(** A function makes its client call exactly when its request can be built,
    and then with that request. *)
Lemma invoke_sends i emr_client w kw :
  sends (invoke i emr_client) w (method_of i) kw <-> request_of i = Return kw.
Proof.
  unfold sends. rewrite invoke_run. split.
  - destruct (request_of i) as [kw'|e]; simpl.
    + intros H.
      assert (Hsent : requests w ++ [(method_of i, kw')] = requests w ++ [(method_of i, kw)]).
      { destruct (emr_client (method_of i) kw') as [response|e].
        - destruct (on_success i response) as [[v r]|e]; exact H.
        - destruct (is_ClientError e); exact H. }
      apply app_inv_head in Hsent. congruence.
    + intros H. exfalso. exact (app_one_neq _ _ H).
  - intros ->. simpl.
    destruct (emr_client (method_of i) kw) as [response|e].
    + destruct (on_success i response) as [[v r]|e]; reflexivity.
    + destruct (is_ClientError e); reflexivity.
Qed.

Example run_job_flow_example :
  run_job_flow (VStr "demo") (VStr "s3://logs") (VBool true) (VList [VStr "Spark"])
    example_job_flow_role example_service_role example_security_groups
    (VList [example_step]) example_client fresh
  = (Return (VStr "j-ABC"),
     mk_world [mk_record INFO "Created cluster %s." [VStr "j-ABC"] None]
       [(m_run_job_flow, example_run_job_flow_request)]).
Proof. reflexivity. Qed.

(** ** The request of [run_job_flow] *)

Lemma comprehension_Return f xs ys :
  comprehension f xs = Return ys ->
  List.length ys = List.length xs /\
  forall i x, nth_error xs i = Some x ->
    exists y, f x = Return y /\ nth_error ys i = Some y.
Proof.
  revert ys. induction xs as [|x rest IH]; simpl; intros ys H.
  - inversion H; subst. split; [reflexivity|].
    intros [|i] x Hx; discriminate.
  - apply rbind_Return in H. destruct H as [y [Hy H]].
    apply rbind_Return in H. destruct H as [ys' [Hys H]].
    inversion H; subst. destruct (IH _ Hys) as [Hlen Hnth].
    split; [simpl; congruence|].
    intros [|i] x' Hx'; simpl in *.
    + inversion Hx'; subst. eauto.
    + eauto.
Qed.

Lemma run_job_flow_sends
    name log_uri keep_alive applications job_flow_role service_role
    security_groups steps emr_client w kw :
  sends (run_job_flow name log_uri keep_alive applications job_flow_role
           service_role security_groups steps emr_client) w m_run_job_flow kw <->
  run_job_flow_kwargs name log_uri keep_alive applications job_flow_role
    service_role security_groups steps = Return kw.
Proof.
  exact (invoke_sends
           (RunJobFlow name log_uri keep_alive applications job_flow_role
              service_role security_groups steps) emr_client w kw).
Qed.

(** C1.  Whenever [run_job_flow] is handed a list of [N] steps and sends its
    request, the [Steps] field of that request is a list of [N] entries in
    the order of the input; entry [i] is the dict with [Name] the [i]-th
    step's [name], [ActionOnFailure] the string CONTINUE, and [HadoopJarStep]
    holding [Jar] command-runner.jar and [Args] the list spark-submit,
    --deploy-mode, cluster, the step's [script_uri], then the items of the
    step's [script_args] in order. *)
Theorem run_job_flow_steps_translated :
  forall name log_uri keep_alive applications job_flow_role service_role
         security_groups (steps : list value) emr_client w kw,
    sends (run_job_flow name log_uri keep_alive applications job_flow_role
             service_role security_groups (VList steps) emr_client)
      w m_run_job_flow kw ->
    exists entries,
      dict_get "Steps" kw = Some (VList entries) /\
      List.length entries = List.length steps /\
      forall i step, nth_error steps i = Some step ->
        exists step_name script_uri script_args unpacked,
          getitem step "name" = Return step_name /\
          getitem step "script_uri" = Return script_uri /\
          getitem step "script_args" = Return script_args /\
          iterate script_args = Return unpacked /\
          nth_error entries i =
            Some
              (VDict
                 [ ("Name", step_name);
                   ("ActionOnFailure", VStr "CONTINUE");
                   ("HadoopJarStep",
                     VDict
                       [ ("Jar", VStr "command-runner.jar");
                         ("Args",
                           VList
                             ([ VStr "spark-submit"; VStr "--deploy-mode";
                                VStr "cluster"; script_uri ] ++ unpacked)) ]) ]).
Proof.
  intros name log_uri keep_alive applications job_flow_role service_role
    security_groups steps emr_client w kw Hsends.
  apply run_job_flow_sends in Hsends. unfold run_job_flow_kwargs in Hsends.
  apply rbind_Return in Hsends. destruct Hsends as [manager [_ H]].
  apply rbind_Return in H. destruct H as [manager_id [_ H]].
  apply rbind_Return in H. destruct H as [worker [_ H]].
  apply rbind_Return in H. destruct H as [worker_id [_ H]].
  apply rbind_Return in H. destruct H as [step_items [Hiter H]].
  apply rbind_Return in H. destruct H as [entries [Hentries H]].
  apply rbind_Return in H. destruct H as [app_items [_ H]].
  apply rbind_Return in H. destruct H as [app_entries [_ H]].
  apply rbind_Return in H. destruct H as [jn [_ H]].
  apply rbind_Return in H. destruct H as [sn [_ H]].
  simpl in Hiter. inversion Hiter; subst step_items. inversion H; subst kw.
  exists entries. split; [reflexivity|].
  destruct (comprehension_Return _ _ _ Hentries) as [Hlen Hnth].
  split; [exact Hlen|].
  intros i step Hstep. destruct (Hnth i step Hstep) as [entry [Hentry Hi]].
  unfold step_entry in Hentry.
  apply rbind_Return in Hentry. destruct Hentry as [step_name [Hname Hentry]].
  apply rbind_Return in Hentry. destruct Hentry as [script_uri [Huri Hentry]].
  apply rbind_Return in Hentry. destruct Hentry as [script_args [Hargs Hentry]].
  apply rbind_Return in Hentry. destruct Hentry as [unpacked [Hun Hentry]].
  inversion Hentry; subst entry.
  exists step_name, script_uri, script_args, unpacked.
  repeat split; assumption.
Qed.

Lemma run_job_flow_steps_translated_witness :
  sends (run_job_flow (VStr "demo") (VStr "s3://logs") (VBool true)
           (VList [VStr "Spark"]) example_job_flow_role example_service_role
           example_security_groups (VList [example_step]) example_client)
    fresh m_run_job_flow example_run_job_flow_request /\
  exists entries,
    dict_get "Steps" example_run_job_flow_request = Some (VList entries) /\
    List.length entries = 1%nat.
Proof.
  assert (Hsends :
    sends (run_job_flow (VStr "demo") (VStr "s3://logs") (VBool true)
             (VList [VStr "Spark"]) example_job_flow_role example_service_role
             example_security_groups (VList [example_step]) example_client)
      fresh m_run_job_flow example_run_job_flow_request) by reflexivity.
  split; [exact Hsends|].
  destruct (run_job_flow_steps_translated _ _ _ _ _ _ _ _ _ _ _ Hsends)
    as [entries [Hsteps [Hlen _]]].
  exists entries. split; [exact Hsteps | exact Hlen].
Defined.

(** C3.  Whatever the caller passes, the request [run_job_flow] sends has
    [InstanceCount] 3, [MasterInstanceType] and [SlaveInstanceType] both
    m5.xlarge, [EbsRootVolumeSize] 10, [VisibleToAllUsers] true and
    [ReleaseLabel] emr-5.30.1. *)
Theorem run_job_flow_fixed_fields :
  forall name log_uri keep_alive applications job_flow_role service_role
         security_groups steps emr_client w kw,
    sends (run_job_flow name log_uri keep_alive applications job_flow_role
             service_role security_groups steps emr_client)
      w m_run_job_flow kw ->
    exists instances,
      dict_get "Instances" kw = Some (VDict instances) /\
      dict_get "InstanceCount" instances = Some (VInt 3) /\
      dict_get "MasterInstanceType" instances = Some (VStr "m5.xlarge") /\
      dict_get "SlaveInstanceType" instances = Some (VStr "m5.xlarge") /\
      dict_get "EbsRootVolumeSize" kw = Some (VInt 10) /\
      dict_get "VisibleToAllUsers" kw = Some (VBool true) /\
      dict_get "ReleaseLabel" kw = Some (VStr "emr-5.30.1").
Proof.
  intros name log_uri keep_alive applications job_flow_role service_role
    security_groups steps emr_client w kw Hsends.
  apply run_job_flow_sends in Hsends. unfold run_job_flow_kwargs in Hsends.
  repeat (apply rbind_Return in Hsends; destruct Hsends as [? [_ Hsends]]).
  inversion Hsends; subst kw.
  eexists. repeat split; reflexivity.
Qed.

Lemma run_job_flow_fixed_fields_witness :
  sends (run_job_flow (VStr "demo") (VStr "s3://logs") (VBool true)
           (VList [VStr "Spark"]) example_job_flow_role example_service_role
           example_security_groups (VList [example_step]) example_client)
    fresh m_run_job_flow example_run_job_flow_request /\
  exists instances,
    dict_get "Instances" example_run_job_flow_request = Some (VDict instances) /\
    dict_get "InstanceCount" instances = Some (VInt 3) /\
    dict_get "MasterInstanceType" instances = Some (VStr "m5.xlarge") /\
    dict_get "SlaveInstanceType" instances = Some (VStr "m5.xlarge") /\
    dict_get "EbsRootVolumeSize" example_run_job_flow_request = Some (VInt 10) /\
    dict_get "VisibleToAllUsers" example_run_job_flow_request = Some (VBool true) /\
    dict_get "ReleaseLabel" example_run_job_flow_request = Some (VStr "emr-5.30.1").
Proof.
  split; [reflexivity|].
  apply (run_job_flow_fixed_fields (VStr "demo") (VStr "s3://logs") (VBool true)
           (VList [VStr "Spark"]) example_job_flow_role example_service_role
           example_security_groups (VList [example_step]) example_client fresh).
  reflexivity.
Defined.

(** ** The request of [add_step] *)

Lemma add_step_sends cluster_id name script_uri script_args emr_client w kw :
  sends (add_step cluster_id name script_uri script_args emr_client)
    w m_add_job_flow_steps kw <->
  add_step_kwargs cluster_id name script_uri script_args = Return kw.
Proof.
  exact (invoke_sends (AddStep cluster_id name script_uri script_args) emr_client w kw).
Qed.

(** C4.  [add_step] called with name X, script_uri s3://b/s.py and
    script_args [--a, 1] sends a request whose single step has [Args]
    spark-submit, --deploy-mode, cluster, s3://b/s.py, --a, 1; and for every
    name, script_uri and script_args the request sent holds exactly one
    step, whose [Args] are the three fixed items, then script_uri, then the
    items of script_args in order. *)
Theorem add_step_request :
  (forall cluster_id emr_client w,
     requests
       (snd (add_step cluster_id (VStr "X") (VStr "s3://b/s.py")
               (VList [VStr "--a"; VStr "1"]) emr_client w)) =
     requests w ++
       [ (m_add_job_flow_steps,
          [ ("JobFlowId", cluster_id);
            ("Steps",
              VList
                [ VDict
                    [ ("Name", VStr "X");
                      ("ActionOnFailure", VStr "CONTINUE");
                      ("HadoopJarStep",
                        VDict
                          [ ("Jar", VStr "command-runner.jar");
                            ("Args",
                              VList
                                [ VStr "spark-submit"; VStr "--deploy-mode";
                                  VStr "cluster"; VStr "s3://b/s.py";
                                  VStr "--a"; VStr "1" ]) ]) ] ]) ]) ]) /\
  (forall cluster_id name script_uri (script_args : list value) emr_client w,
     requests
       (snd (add_step cluster_id name script_uri (VList script_args) emr_client w)) =
     requests w ++
       [ (m_add_job_flow_steps,
          [ ("JobFlowId", cluster_id);
            ("Steps",
              VList
                [ VDict
                    [ ("Name", name);
                      ("ActionOnFailure", VStr "CONTINUE");
                      ("HadoopJarStep",
                        VDict
                          [ ("Jar", VStr "command-runner.jar");
                            ("Args",
                              VList
                                ([ VStr "spark-submit"; VStr "--deploy-mode";
                                   VStr "cluster"; script_uri ] ++ script_args)) ]) ] ]) ]) ]).
Proof.
  assert (Hgeneral :
    forall cluster_id name script_uri (script_args : list value) emr_client w,
      sends (add_step cluster_id name script_uri (VList script_args) emr_client)
        w m_add_job_flow_steps
        [ ("JobFlowId", cluster_id);
          ("Steps", VList [spark_step name script_uri script_args]) ]).
  { intros. apply add_step_sends. reflexivity. }
  split.
  - intros cluster_id emr_client w.
    exact (Hgeneral cluster_id (VStr "X") (VStr "s3://b/s.py")
             [VStr "--a"; VStr "1"] emr_client w).
  - intros cluster_id name script_uri script_args emr_client w.
    exact (Hgeneral cluster_id name script_uri script_args emr_client w).
Qed.

(** ** [terminate_cluster] *)

(** C5.  [terminate_cluster] always sends [terminate_job_flows] the
    one-element list holding the cluster identifier it was given, and
    returns no value: [None] when the client call returns, and nothing but
    [None] ever. *)
Theorem terminate_cluster_request :
  forall cluster_id emr_client w,
    requests (snd (terminate_cluster cluster_id emr_client w)) =
      requests w ++ [(m_terminate_job_flows, [("JobFlowIds", VList [cluster_id])])] /\
    (forall response,
       emr_client m_terminate_job_flows [("JobFlowIds", VList [cluster_id])]
         = Return response ->
       fst (terminate_cluster cluster_id emr_client w) = Return VNone) /\
    (forall v,
       fst (terminate_cluster cluster_id emr_client w) = Return v -> v = VNone).
Proof.
  intros cluster_id emr_client w. rewrite terminate_cluster_run. simpl.
  destruct (emr_client m_terminate_job_flows _) as [response|e].
  - simpl. split; [reflexivity|]. split; [reflexivity|].
    intros v H. inversion H. reflexivity.
  - split; [destruct (is_ClientError e); reflexivity|].
    split; [intros response H; discriminate|].
    intros v H. destruct (is_ClientError e); discriminate.
Qed.

Lemma terminate_cluster_request_witness :
  requests (snd (terminate_cluster (VStr "j-ABC") example_client fresh)) =
    [(m_terminate_job_flows, [("JobFlowIds", VList [VStr "j-ABC"])])] /\
  fst (terminate_cluster (VStr "j-ABC") example_client fresh) = Return VNone.
Proof.
  destruct (terminate_cluster_request (VStr "j-ABC") example_client fresh)
    as [Hrequest [Hreturns _]].
  split; [exact Hrequest|].
  apply (Hreturns (VDict [])). reflexivity.
Defined.

(** ** [list_steps] on an empty list *)

(** C7.  When the response of the client has an empty list under [Steps],
    [list_steps] returns the empty list and raises nothing. *)
Theorem list_steps_empty :
  forall cluster_id emr_client w response,
    emr_client m_list_steps [("ClusterId", cluster_id)] = Return response ->
    getitem response "Steps" = Return (VList []) ->
    fst (list_steps cluster_id emr_client w) = Return (VList []).
Proof.
  intros cluster_id emr_client w response Hcall Hsteps.
  rewrite list_steps_run. simpl. rewrite Hcall, Hsteps. reflexivity.
Qed.

Lemma list_steps_empty_witness :
  example_client m_list_steps [("ClusterId", VStr "j-ABC")]
    = Return (VDict [("Steps", VList [])]) /\
  getitem (VDict [("Steps", VList [])]) "Steps" = Return (VList []) /\
  fst (list_steps (VStr "j-ABC") example_client fresh) = Return (VList []).
Proof.
  split; [reflexivity|]. split; [reflexivity|].
  apply (list_steps_empty (VStr "j-ABC") example_client fresh
           (VDict [("Steps", VList [])])); reflexivity.
Defined.

(** ** Failures of the client call *)




(** C10.  In each of the six functions only [ClientError] is caught.  A
    client call that raises [e] makes the function raise [e]; one record (the
    one of the [except] clause) is emitted when [e] is a [ClientError] and
    none otherwise.  When the client call returns and unwrapping the
    response raises (a missing [JobFlowId], [StepIds], [Steps], ...), that
    exception, never a [ClientError], reaches the caller and no record is
    emitted.  And whatever exception outside [ClientError] a function
    raises, it has emitted no record. *)
Theorem only_ClientError_is_caught :
  forall i emr_client w,
    (forall kw e,
       sends (invoke i emr_client) w (method_of i) kw ->
       emr_client (method_of i) kw = Raise e ->
       fst (invoke i emr_client w) = Raise e /\
       records (snd (invoke i emr_client w)) =
         records w ++ (if is_ClientError e then [failure_record i e] else [])) /\
    (forall kw response e,
       sends (invoke i emr_client) w (method_of i) kw ->
       emr_client (method_of i) kw = Return response ->
       on_success i response = Raise e ->
       fst (invoke i emr_client w) = Raise e /\
       is_ClientError e = false /\
       records (snd (invoke i emr_client w)) = records w) /\
    (forall e,
       fst (invoke i emr_client w) = Raise e ->
       is_ClientError e = false ->
       records (snd (invoke i emr_client w)) = records w).
Proof.
  intros i emr_client w. split; [|split].
  - intros kw e Hsends Hcall. apply invoke_sends in Hsends.
    rewrite invoke_run, Hsends. simpl. rewrite Hcall.
    destruct (is_ClientError e); simpl; split;
      try reflexivity; symmetry; apply app_nil_r.
  - intros kw response e Hsends Hcall Hunwrap. apply invoke_sends in Hsends.
    rewrite invoke_run, Hsends. simpl. rewrite Hcall, Hunwrap. simpl.
    split; [reflexivity|]. split; [|reflexivity].
    exact (on_success_raises _ _ _ Hunwrap).
  - intros e. rewrite invoke_run.
    destruct (request_of i) as [kw|e0]; simpl.
    + destruct (emr_client (method_of i) kw) as [response|e0].
      * destruct (on_success i response) as [[v r]|e0]; simpl;
          [discriminate | reflexivity].
      * destruct (is_ClientError e0) eqn:Hclass; simpl; intros He Hnot.
        -- inversion He; subst. congruence.
        -- reflexivity.
    + reflexivity.
Qed.

Lemma only_ClientError_is_caught_witness :
  (fst (invoke (ListSteps (VStr "j-ABC"))
          (raising_client (OtherException "EndpointConnectionError" [])) fresh)
     = Raise (OtherException "EndpointConnectionError" []) /\
   records
     (snd (invoke (ListSteps (VStr "j-ABC"))
             (raising_client (OtherException "EndpointConnectionError" [])) fresh))
     = []) /\
  (fst (invoke (ListSteps (VStr "j-ABC")) (fun _ _ => Return (VDict [])) fresh)
     = Raise (KeyError (VStr "Steps")) /\
   is_ClientError (KeyError (VStr "Steps")) = false /\
   records (snd (invoke (ListSteps (VStr "j-ABC")) (fun _ _ => Return (VDict [])) fresh))
     = []).
Proof.
  split.
  - destruct (only_ClientError_is_caught (ListSteps (VStr "j-ABC"))
                (raising_client (OtherException "EndpointConnectionError" [])) fresh)
      as [Hcall _].
    apply (Hcall [("ClusterId", VStr "j-ABC")]); reflexivity.
  - destruct (only_ClientError_is_caught (ListSteps (VStr "j-ABC"))
                (fun _ _ => Return (VDict [])) fresh)
      as [_ [Hunwrap _]].
    apply (Hunwrap [("ClusterId", VStr "j-ABC")] (VDict [])); reflexivity.
Defined.

(** ** What the functions return *)

(** C6, as amended.  When the client call returns, [run_job_flow] returns
    the response's [JobFlowId], [add_step] the first item of the response's
    [StepIds], [list_steps] the response's [Steps] list and [describe_step]
    the response's [Step]; [describe_cluster] returns the response's
    [Cluster] provided that record has a [Name], which the function reads
    for its log line before it returns. *)
Theorem success_returns_response_field :
  (forall name log_uri keep_alive applications job_flow_role service_role
          security_groups steps emr_client w kw response cluster_id,
     sends (run_job_flow name log_uri keep_alive applications job_flow_role
              service_role security_groups steps emr_client)
       w m_run_job_flow kw ->
     emr_client m_run_job_flow kw = Return response ->
     getitem response "JobFlowId" = Return cluster_id ->
     fst (run_job_flow name log_uri keep_alive applications job_flow_role
            service_role security_groups steps emr_client w) = Return cluster_id) /\
  (forall cluster_id emr_client w response cluster cluster_name,
     emr_client m_describe_cluster [("ClusterId", cluster_id)] = Return response ->
     getitem response "Cluster" = Return cluster ->
     getitem cluster "Name" = Return cluster_name ->
     fst (describe_cluster cluster_id emr_client w) = Return cluster) /\
  (forall cluster_id name script_uri script_args emr_client w kw response
          step_ids step_id,
     sends (add_step cluster_id name script_uri script_args emr_client)
       w m_add_job_flow_steps kw ->
     emr_client m_add_job_flow_steps kw = Return response ->
     getitem response "StepIds" = Return step_ids ->
     getitem_index step_ids 0 = Return step_id ->
     fst (add_step cluster_id name script_uri script_args emr_client w)
       = Return step_id) /\
  (forall cluster_id emr_client w response steps,
     emr_client m_list_steps [("ClusterId", cluster_id)] = Return response ->
     getitem response "Steps" = Return (VList steps) ->
     fst (list_steps cluster_id emr_client w) = Return (VList steps)) /\
  (forall cluster_id step_id emr_client w response step,
     emr_client m_describe_step [("ClusterId", cluster_id); ("StepId", step_id)]
       = Return response ->
     getitem response "Step" = Return step ->
     fst (describe_step cluster_id step_id emr_client w) = Return step).
Proof.
  repeat apply conj.
  - intros name log_uri keep_alive applications job_flow_role service_role
      security_groups steps emr_client w kw response cluster_id Hsends Hcall Hid.
    apply run_job_flow_sends in Hsends.
    rewrite run_job_flow_run, Hsends. simpl. rewrite Hcall, Hid. reflexivity.
  - intros cluster_id emr_client w response cluster cluster_name Hcall Hc Hn.
    rewrite describe_cluster_run. simpl. rewrite Hcall, Hc, Hn. reflexivity.
  - intros cluster_id name script_uri script_args emr_client w kw response
      step_ids step_id Hsends Hcall Hids Hid.
    apply add_step_sends in Hsends.
    rewrite add_step_run, Hsends. simpl. rewrite Hcall, Hids, Hid. reflexivity.
  - intros cluster_id emr_client w response steps Hcall Hs.
    rewrite list_steps_run. simpl. rewrite Hcall, Hs. reflexivity.
  - intros cluster_id step_id emr_client w response step Hcall Hs.
    rewrite describe_step_run. simpl. rewrite Hcall, Hs. reflexivity.
Qed.

Lemma success_returns_response_field_witness :
  example_client m_describe_cluster [("ClusterId", VStr "j-ABC")]
    = Return (VDict [("Cluster", VDict [("Id", VStr "j-ABC"); ("Name", VStr "demo")])]) /\
  fst (describe_cluster (VStr "j-ABC") example_client fresh)
    = Return (VDict [("Id", VStr "j-ABC"); ("Name", VStr "demo")]) /\
  fst (add_step (VStr "j-ABC") (VStr "X") (VStr "s3://b/s.py")
         (VList [VStr "--a"; VStr "1"]) example_client fresh)
    = Return (VStr "s-1").
Proof.
  destruct success_returns_response_field
    as [_ [Hdescribe_cluster [Hadd_step _]]].
  split; [reflexivity|]. split.
  - apply (Hdescribe_cluster (VStr "j-ABC") example_client fresh
             (VDict [("Cluster", VDict [("Id", VStr "j-ABC"); ("Name", VStr "demo")])])
             (VDict [("Id", VStr "j-ABC"); ("Name", VStr "demo")])
             (VStr "demo")); reflexivity.
  - apply (Hadd_step (VStr "j-ABC") (VStr "X") (VStr "s3://b/s.py")
             (VList [VStr "--a"; VStr "1"]) example_client fresh
             [ ("JobFlowId", VStr "j-ABC");
               ("Steps",
                 VList [spark_step (VStr "X") (VStr "s3://b/s.py") [VStr "--a"; VStr "1"]]) ]
             (VDict [("StepIds", VList [VStr "s-1"])])
             (VList [VStr "s-1"])); reflexivity.
Defined.

(** C6, as stated, fails for [describe_cluster]: the client call returns a
    response whose [Cluster] record has no [Name]; the function does not
    return that record, it raises the [KeyError] of the lookup its log line
    makes. *)
Lemma describe_cluster_record_without_Name :
  client_without_Name m_describe_cluster [("ClusterId", VStr "j-ABC")]
    = Return (VDict [("Cluster", VDict [("Id", VStr "j-ABC")])]) /\
  getitem (VDict [("Cluster", VDict [("Id", VStr "j-ABC")])]) "Cluster"
    = Return (VDict [("Id", VStr "j-ABC")]) /\
  fst (describe_cluster (VStr "j-ABC") client_without_Name fresh)
    = Raise (KeyError (VStr "Name")) /\
  fst (describe_cluster (VStr "j-ABC") client_without_Name fresh)
    <> Return (VDict [("Id", VStr "j-ABC")]).
Proof.
  repeat split. discriminate.
Qed.

(** ** Statelessness *)

(** C8.  Two calls of the same function with equal arguments, on clients
    that answer alike, from any two worlds: they return or raise the same,
    send the same request and emit the same records, and each leaves its
    world as it found it but for those records and that request appended. *)
Theorem stateless_and_deterministic :
  forall i emr_client1 emr_client2 w1 w2,
    (forall kw, emr_client1 (method_of i) kw = emr_client2 (method_of i) kw) ->
    fst (invoke i emr_client1 w1) = fst (invoke i emr_client2 w2) /\
    exists new_records new_requests,
      snd (invoke i emr_client1 w1) =
        mk_world (records w1 ++ new_records) (requests w1 ++ new_requests) /\
      snd (invoke i emr_client2 w2) =
        mk_world (records w2 ++ new_records) (requests w2 ++ new_requests).
Proof.
  intros i emr_client1 emr_client2 w1 w2 Hsame.
  rewrite !invoke_run.
  destruct (request_of i) as [kw|e]; simpl.
  - rewrite <- (Hsame kw).
    destruct (emr_client1 (method_of i) kw) as [response|e].
    + destruct (on_success i response) as [[v r]|e]; simpl.
      * split; [reflexivity|]. exists [r], [(method_of i, kw)]. split; reflexivity.
      * split; [reflexivity|]. exists [], [(method_of i, kw)].
        rewrite !app_nil_r. split; reflexivity.
    + destruct (is_ClientError e); simpl.
      * split; [reflexivity|].
        exists [failure_record i e], [(method_of i, kw)]. split; reflexivity.
      * split; [reflexivity|]. exists [], [(method_of i, kw)].
        rewrite !app_nil_r. split; reflexivity.
  - split; [reflexivity|]. exists [], []. rewrite !app_nil_r.
    destruct w1, w2. split; reflexivity.
Qed.

Lemma stateless_and_deterministic_witness :
  fst (invoke (AddStep (VStr "j-ABC") (VStr "X") (VStr "s3://b/s.py")
                 (VList [VStr "--a"; VStr "1"])) example_client fresh)
  = fst (invoke (AddStep (VStr "j-ABC") (VStr "X") (VStr "s3://b/s.py")
                   (VList [VStr "--a"; VStr "1"])) example_client
           (mk_world [mk_record INFO "Terminated cluster %s." [VStr "j-OLD"] None]
              [(m_terminate_job_flows, [("JobFlowIds", VList [VStr "j-OLD"])])])).
Proof.
  apply (stateless_and_deterministic
           (AddStep (VStr "j-ABC") (VStr "X") (VStr "s3://b/s.py")
              (VList [VStr "--a"; VStr "1"]))
           example_client example_client fresh
           (mk_world [mk_record INFO "Terminated cluster %s." [VStr "j-OLD"] None]
              [(m_terminate_job_flows, [("JobFlowIds", VList [VStr "j-OLD"])])])).
  intros kw. reflexivity.
Defined.

(** ** [run_job_flow] and the shape of its inputs *)

Lemma getitem_Return v k x : getitem v k = Return x -> maps_to v k x.
Proof.
  destruct v; simpl; try discriminate.
  destruct (dict_get k entries) as [y|] eqn:Hget; intros H; inversion H; subst.
  exists entries. split; [reflexivity | exact Hget].
Qed.

Lemma getattr_Return v a x : getattr v a = Return x -> exposes v a x.
Proof.
  destruct v; simpl; try discriminate.
  destruct (dict_get a attrs) as [y|] eqn:Hget; intros H; inversion H; subst.
  exists attrs. split; [reflexivity | exact Hget].
Qed.

Lemma step_entry_Return step entry :
  step_entry step = Return entry -> step_shape step.
Proof.
  unfold step_entry. intros H.
  apply rbind_Return in H. destruct H as [n [Hn H]].
  apply rbind_Return in H. destruct H as [u [Hu H]].
  apply rbind_Return in H. destruct H as [a [Ha _]].
  repeat split; eexists; apply getitem_Return; eassumption.
Qed.

Lemma comprehension_step_entry_Return items entries :
  comprehension step_entry items = Return entries -> Forall step_shape items.
Proof.
  revert entries. induction items as [|step rest IH]; simpl; intros entries H.
  - constructor.
  - apply rbind_Return in H. destruct H as [entry [Hentry H]].
    apply rbind_Return in H. destruct H as [entries' [Hrest _]].
    constructor; [eapply step_entry_Return; eassumption | eapply IH; eassumption].
Qed.

(** C9.  [run_job_flow] sends a request only when its inputs have the shape
    above, and the request then carries the [id] of the two security groups
    and the [name] of the two roles, not the objects.  When the inputs do
    not have that shape the call raises an exception that is not a
    [ClientError] and leaves the world as it was: no request sent, no record
    emitted. *)
Theorem run_job_flow_input_shape :
  forall name log_uri keep_alive applications job_flow_role service_role
         security_groups steps emr_client w,
    (forall kw,
       sends (run_job_flow name log_uri keep_alive applications job_flow_role
                service_role security_groups steps emr_client)
         w m_run_job_flow kw ->
       exists manager_id worker_id job_flow_role_name service_role_name instances,
         input_shape job_flow_role service_role security_groups steps
           manager_id worker_id job_flow_role_name service_role_name /\
         dict_get "Instances" kw = Some (VDict instances) /\
         dict_get "EmrManagedMasterSecurityGroup" instances = Some manager_id /\
         dict_get "EmrManagedSlaveSecurityGroup" instances = Some worker_id /\
         dict_get "JobFlowRole" kw = Some job_flow_role_name /\
         dict_get "ServiceRole" kw = Some service_role_name) /\
    ((forall manager_id worker_id job_flow_role_name service_role_name,
        ~ input_shape job_flow_role service_role security_groups steps
            manager_id worker_id job_flow_role_name service_role_name) ->
     exists e,
       run_job_flow name log_uri keep_alive applications job_flow_role
         service_role security_groups steps emr_client w = (Raise e, w) /\
       is_ClientError e = false).
Proof.
  intros name log_uri keep_alive applications job_flow_role service_role
    security_groups steps emr_client w.
  assert (Hshape :
    forall kw,
      run_job_flow_kwargs name log_uri keep_alive applications job_flow_role
        service_role security_groups steps = Return kw ->
      exists manager_id worker_id job_flow_role_name service_role_name instances,
        input_shape job_flow_role service_role security_groups steps
          manager_id worker_id job_flow_role_name service_role_name /\
        dict_get "Instances" kw = Some (VDict instances) /\
        dict_get "EmrManagedMasterSecurityGroup" instances = Some manager_id /\
        dict_get "EmrManagedSlaveSecurityGroup" instances = Some worker_id /\
        dict_get "JobFlowRole" kw = Some job_flow_role_name /\
        dict_get "ServiceRole" kw = Some service_role_name).
  { intros kw H. unfold run_job_flow_kwargs in H.
    apply rbind_Return in H. destruct H as [manager [Hm H]].
    apply rbind_Return in H. destruct H as [manager_id [Hmid H]].
    apply rbind_Return in H. destruct H as [worker [Hw H]].
    apply rbind_Return in H. destruct H as [worker_id [Hwid H]].
    apply rbind_Return in H. destruct H as [step_items [Hiter H]].
    apply rbind_Return in H. destruct H as [entries [Hentries H]].
    apply rbind_Return in H. destruct H as [app_items [_ H]].
    apply rbind_Return in H. destruct H as [app_entries [_ H]].
    apply rbind_Return in H. destruct H as [jn [Hjn H]].
    apply rbind_Return in H. destruct H as [sn [Hsn H]].
    inversion H; subst kw.
    exists manager_id, worker_id, jn, sn. eexists.
    split; [|repeat split; reflexivity].
    unfold input_shape. repeat apply conj.
    - exists manager. split; [apply getitem_Return | apply getattr_Return]; assumption.
    - exists worker. split; [apply getitem_Return | apply getattr_Return]; assumption.
    - apply getattr_Return; assumption.
    - apply getattr_Return; assumption.
    - intros items Hitems. rewrite Hiter in Hitems. inversion Hitems; subst items.
      eapply comprehension_step_entry_Return; eassumption. }
  split.
  - intros kw Hsends. apply run_job_flow_sends in Hsends. exact (Hshape kw Hsends).
  - intros Hnot. rewrite run_job_flow_run.
    destruct (run_job_flow_kwargs _ _ _ _ _ _ _ _) as [kw|e] eqn:Hkw.
    + destruct (Hshape kw eq_refl) as [mid [wid [jn [sn [instances [Hin _]]]]]].
      exfalso. exact (Hnot mid wid jn sn Hin).
    + exists e. split; [reflexivity|].
      exact (run_job_flow_kwargs_raises _ _ _ _ _ _ _ _ _ Hkw).
Qed.

Lemma run_job_flow_input_shape_witness :
  (exists manager_id worker_id job_flow_role_name service_role_name,
     input_shape example_job_flow_role example_service_role
       example_security_groups (VList [example_step])
       manager_id worker_id job_flow_role_name service_role_name) /\
  (forall manager_id worker_id job_flow_role_name service_role_name,
     ~ input_shape example_job_flow_role example_service_role
         (VDict [("manager", VObject [("id", VStr "sg-manager")])])
         (VList [example_step])
         manager_id worker_id job_flow_role_name service_role_name) /\
  exists e,
    run_job_flow (VStr "demo") (VStr "s3://logs") (VBool true) (VList [VStr "Spark"])
      example_job_flow_role example_service_role
      (VDict [("manager", VObject [("id", VStr "sg-manager")])])
      (VList [example_step]) example_client fresh
    = (Raise e, fresh) /\
    is_ClientError e = false.
Proof.
  assert (Hnot :
    forall manager_id worker_id job_flow_role_name service_role_name,
      ~ input_shape example_job_flow_role example_service_role
          (VDict [("manager", VObject [("id", VStr "sg-manager")])])
          (VList [example_step])
          manager_id worker_id job_flow_role_name service_role_name).
  { intros manager_id worker_id jn sn [_ [[worker [[d [Hd Hget]] _]] _]].
    inversion Hd; subst d. discriminate Hget. }
  split; [|split; [exact Hnot|]].
  - destruct (run_job_flow_input_shape (VStr "demo") (VStr "s3://logs") (VBool true)
                (VList [VStr "Spark"]) example_job_flow_role example_service_role
                example_security_groups (VList [example_step]) example_client fresh)
      as [Hsent _].
    destruct (Hsent example_run_job_flow_request eq_refl)
      as [mid [wid [jn [sn [_ [Hshape _]]]]]].
    exists mid, wid, jn, sn. exact Hshape.
  - destruct (run_job_flow_input_shape (VStr "demo") (VStr "s3://logs") (VBool true)
                (VList [VStr "Spark"]) example_job_flow_role example_service_role
                (VDict [("manager", VObject [("id", VStr "sg-manager")])])
                (VList [example_step]) example_client fresh)
      as [_ Hfails].
    exact (Hfails Hnot).
Defined.

(** ** Further properties of the six functions *)


(** X1.  No function calls the client twice or logs twice: a call appends
    at most one record and at most one request to the world, and the
    request, if any, goes to the function's own client method. *)
Theorem at_most_one_call_and_one_record :
  forall i emr_client w,
    exists new_records new_requests,
      snd (invoke i emr_client w) =
        mk_world (records w ++ new_records) (requests w ++ new_requests) /\
      (List.length new_records <= 1)%nat /\
      (List.length new_requests <= 1)%nat /\
      Forall (fun q => fst q = method_of i) new_requests.
Proof.
  intros i emr_client w. rewrite invoke_run.
  destruct (request_of i) as [kw|e]; simpl.
  - destruct (emr_client (method_of i) kw) as [response|e].
    + destruct (on_success i response) as [[v r]|e]; simpl.
      * exists [r], [(method_of i, kw)]. repeat split; simpl; auto.
      * exists [], [(method_of i, kw)]. rewrite app_nil_r.
        repeat split; simpl; auto.
    + destruct (is_ClientError e); simpl.
      * exists [failure_record i e], [(method_of i, kw)]. repeat split; simpl; auto.
      * exists [], [(method_of i, kw)]. rewrite app_nil_r.
        repeat split; simpl; auto.
  - exists [], []. rewrite !app_nil_r. destruct w. repeat split; simpl; auto.
Qed.



(** X3.  The functions raise no [ClientError] of their own: whenever one of
    them raises a [ClientError], it had sent its request and that exception
    is the one the client call raised. *)
Theorem ClientError_comes_from_the_client :
  forall i emr_client w e,
    fst (invoke i emr_client w) = Raise e ->
    is_ClientError e = true ->
    exists kw,
      sends (invoke i emr_client) w (method_of i) kw /\
      emr_client (method_of i) kw = Raise e.
Proof.
  intros i emr_client w e Hraise Hclass.
  destruct (request_of i) as [kw|e0] eqn:Hreq.
  - exists kw. split; [apply invoke_sends; exact Hreq|].
    rewrite invoke_run, Hreq in Hraise. simpl in Hraise.
    destruct (emr_client (method_of i) kw) as [response|e0].
    + destruct (on_success i response) as [[v r]|e0] eqn:Hok; simpl in Hraise.
      * discriminate.
      * inversion Hraise; subst.
        rewrite (on_success_raises _ _ _ Hok) in Hclass. discriminate.
    + destruct (is_ClientError e0); simpl in Hraise; inversion Hraise; reflexivity.
  - rewrite invoke_run, Hreq in Hraise. simpl in Hraise. inversion Hraise; subst.
    rewrite (request_of_raises _ _ Hreq) in Hclass. discriminate.
Qed.

Lemma ClientError_comes_from_the_client_witness :
  exists kw,
    sends (invoke (TerminateCluster (VStr "j-ABC"))
             (raising_client (ClientError (VDict [("Code", VStr "AccessDenied")])
                                "TerminateJobFlows")))
      fresh m_terminate_job_flows kw /\
    raising_client (ClientError (VDict [("Code", VStr "AccessDenied")])
                      "TerminateJobFlows") m_terminate_job_flows kw
      = Raise (ClientError (VDict [("Code", VStr "AccessDenied")]) "TerminateJobFlows").
Proof.
  apply (ClientError_comes_from_the_client
           (TerminateCluster (VStr "j-ABC"))
           (raising_client (ClientError (VDict [("Code", VStr "AccessDenied")])
                              "TerminateJobFlows")) fresh);
    reflexivity.
Defined.

(** *** More on the request of [run_job_flow] *)

Lemma comprehension_application_entry apps :
  comprehension application_entry apps =
  Return (map (fun app => VDict [("Name", app)]) apps).
Proof.
  induction apps as [|app rest IH]; simpl; [reflexivity|].
  rewrite IH. reflexivity.
Qed.

Lemma maps_to_getitem v k x : maps_to v k x -> getitem v k = Return x.
Proof.
  intros [d [-> Hget]]. simpl. rewrite Hget. reflexivity.
Qed.

Lemma exposes_getattr v a x : exposes v a x -> getattr v a = Return x.
Proof.
  intros [attrs [-> Hget]]. simpl. rewrite Hget. reflexivity.
Qed.

Lemma comprehension_step_entry_ready items :
  Forall step_ready items ->
  exists entries, comprehension step_entry items = Return entries.
Proof.
  induction 1 as [|step rest Hstep _ IH]; simpl.
  - eexists. reflexivity.
  - destruct Hstep as [n [u [a [un [Hn [Hu [Ha Hun]]]]]]].
    destruct IH as [entries Hentries].
    unfold step_entry at 1.
    rewrite (maps_to_getitem _ _ _ Hn), (maps_to_getitem _ _ _ Hu),
      (maps_to_getitem _ _ _ Ha). simpl. rewrite Hun. simpl.
    rewrite Hentries. simpl. eexists. reflexivity.
Qed.

(** X4.  The request [run_job_flow] sends for a list of applications lists
    them under [Applications] in the same order, each wrapped as the dict
    with the single key [Name]; nothing is dropped, added or reordered. *)
Theorem run_job_flow_applications :
  forall name log_uri keep_alive (applications : list value) job_flow_role
         service_role security_groups steps emr_client w kw,
    sends (run_job_flow name log_uri keep_alive (VList applications)
             job_flow_role service_role security_groups steps emr_client)
      w m_run_job_flow kw ->
    dict_get "Applications" kw =
      Some (VList (map (fun app => VDict [("Name", app)]) applications)).
Proof.
  intros name log_uri keep_alive applications job_flow_role service_role
    security_groups steps emr_client w kw H.
  apply run_job_flow_sends in H. unfold run_job_flow_kwargs in H.
  apply rbind_Return in H. destruct H as [manager [_ H]].
  apply rbind_Return in H. destruct H as [manager_id [_ H]].
  apply rbind_Return in H. destruct H as [worker [_ H]].
  apply rbind_Return in H. destruct H as [worker_id [_ H]].
  apply rbind_Return in H. destruct H as [step_items [_ H]].
  apply rbind_Return in H. destruct H as [entries [_ H]].
  apply rbind_Return in H. destruct H as [app_items [Happs H]].
  apply rbind_Return in H. destruct H as [app_entries [Hentries H]].
  apply rbind_Return in H. destruct H as [jn [_ H]].
  apply rbind_Return in H. destruct H as [sn [_ H]].
  simpl in Happs. inversion Happs; subst app_items.
  rewrite comprehension_application_entry in Hentries.
  inversion Hentries; subst app_entries. inversion H; subst kw. reflexivity.
Qed.

Lemma run_job_flow_applications_witness :
  sends (run_job_flow (VStr "demo") (VStr "s3://logs") (VBool true)
           (VList [VStr "Spark"]) example_job_flow_role example_service_role
           example_security_groups (VList [example_step]) example_client)
    fresh m_run_job_flow example_run_job_flow_request /\
  dict_get "Applications" example_run_job_flow_request =
    Some (VList [VDict [("Name", VStr "Spark")]]).
Proof.
  split; [reflexivity|].
  apply (run_job_flow_applications (VStr "demo") (VStr "s3://logs") (VBool true)
           [VStr "Spark"] example_job_flow_role example_service_role
           example_security_groups (VList [example_step]) example_client fresh).
  reflexivity.
Defined.

(** X5.  The request [run_job_flow] sends carries the caller's [name],
    [log_uri] and [keep_alive] unchanged, and holds exactly ten parameters
    (six under [Instances]): no key pair, subnet or other parameter is ever
    sent. *)
Theorem run_job_flow_passes_caller_values :
  forall name log_uri keep_alive applications job_flow_role service_role
         security_groups steps emr_client w kw,
    sends (run_job_flow name log_uri keep_alive applications job_flow_role
             service_role security_groups steps emr_client)
      w m_run_job_flow kw ->
    dict_get "Name" kw = Some name /\
    dict_get "LogUri" kw = Some log_uri /\
    map fst kw =
      [ "Name"; "LogUri"; "ReleaseLabel"; "Instances"; "Steps"; "Applications";
        "JobFlowRole"; "ServiceRole"; "EbsRootVolumeSize"; "VisibleToAllUsers" ] /\
    exists instances,
      dict_get "Instances" kw = Some (VDict instances) /\
      dict_get "KeepJobFlowAliveWhenNoSteps" instances = Some keep_alive /\
      map fst instances =
        [ "MasterInstanceType"; "SlaveInstanceType"; "InstanceCount";
          "KeepJobFlowAliveWhenNoSteps"; "EmrManagedMasterSecurityGroup";
          "EmrManagedSlaveSecurityGroup" ].
Proof.
  intros name log_uri keep_alive applications job_flow_role service_role
    security_groups steps emr_client w kw H.
  apply run_job_flow_sends in H. unfold run_job_flow_kwargs in H.
  repeat (apply rbind_Return in H; destruct H as [? [_ H]]).
  inversion H; subst kw.
  split; [reflexivity|]. split; [reflexivity|]. split; [reflexivity|].
  eexists. split; [reflexivity|]. split; reflexivity.
Qed.

Lemma run_job_flow_passes_caller_values_witness :
  sends (run_job_flow (VStr "demo") (VStr "s3://logs") (VBool true)
           (VList [VStr "Spark"]) example_job_flow_role example_service_role
           example_security_groups (VList [example_step]) example_client)
    fresh m_run_job_flow example_run_job_flow_request /\
  dict_get "Name" example_run_job_flow_request = Some (VStr "demo") /\
  dict_get "LogUri" example_run_job_flow_request = Some (VStr "s3://logs").
Proof.
  split; [reflexivity|].
  destruct (run_job_flow_passes_caller_values (VStr "demo") (VStr "s3://logs")
              (VBool true) (VList [VStr "Spark"]) example_job_flow_role
              example_service_role example_security_groups (VList [example_step])
              example_client fresh example_run_job_flow_request eq_refl)
    as [Hname [Hlog _]].
  split; [exact Hname | exact Hlog].
Defined.

(** X6.  The shape of the inputs is enough for [run_job_flow] to reach the
    client: when [security_groups] maps [manager] and [worker] to objects
    with an [id], both roles have a [name], [applications] can be iterated
    and every item of [steps] has the three keys with [script_args] that can
    be unpacked, the request is built and sent, whatever the client then
    answers.  An empty list of steps or of applications is fine. *)
Theorem run_job_flow_reaches_the_client :
  forall name log_uri keep_alive applications job_flow_role service_role
         security_groups steps emr_client w
         manager manager_id worker worker_id job_flow_role_name
         service_role_name app_items step_items,
    maps_to security_groups "manager" manager ->
    exposes manager "id" manager_id ->
    maps_to security_groups "worker" worker ->
    exposes worker "id" worker_id ->
    exposes job_flow_role "name" job_flow_role_name ->
    exposes service_role "name" service_role_name ->
    iterate applications = Return app_items ->
    iterate steps = Return step_items ->
    Forall step_ready step_items ->
    exists kw,
      sends (run_job_flow name log_uri keep_alive applications job_flow_role
               service_role security_groups steps emr_client)
        w m_run_job_flow kw.
Proof.
  intros name log_uri keep_alive applications job_flow_role service_role
    security_groups steps emr_client w manager manager_id worker worker_id jn sn
    app_items step_items Hm Hmid Hw Hwid Hjn Hsn Happs Hsteps Hready.
  destruct (comprehension_step_entry_ready _ Hready) as [entries Hentries].
  eexists. apply run_job_flow_sends. unfold run_job_flow_kwargs.
  rewrite (maps_to_getitem _ _ _ Hm). simpl.
  rewrite (exposes_getattr _ _ _ Hmid). simpl.
  rewrite (maps_to_getitem _ _ _ Hw). simpl.
  rewrite (exposes_getattr _ _ _ Hwid). simpl.
  rewrite Hsteps. simpl. rewrite Hentries. simpl.
  rewrite Happs. simpl. rewrite comprehension_application_entry. simpl.
  rewrite (exposes_getattr _ _ _ Hjn). simpl.
  rewrite (exposes_getattr _ _ _ Hsn). simpl.
  reflexivity.
Qed.

Lemma run_job_flow_reaches_the_client_witness :
  exists kw,
    sends (run_job_flow (VStr "demo") (VStr "s3://logs") (VBool false)
             (VList []) example_job_flow_role example_service_role
             example_security_groups (VList [])
             (raising_client (OtherException "EndpointConnectionError" [])))
      fresh m_run_job_flow kw.
Proof.
  apply (run_job_flow_reaches_the_client (VStr "demo") (VStr "s3://logs")
           (VBool false) (VList []) example_job_flow_role example_service_role
           example_security_groups (VList [])
           (raising_client (OtherException "EndpointConnectionError" [])) fresh
           (VObject [("id", VStr "sg-manager")]) (VStr "sg-manager")
           (VObject [("id", VStr "sg-worker")]) (VStr "sg-worker")
           (VStr "emr-ec2-role") (VStr "emr-service-role") [] []).
  - eexists; split; reflexivity.
  - eexists; split; reflexivity.
  - eexists; split; reflexivity.
  - eexists; split; reflexivity.
  - eexists; split; reflexivity.
  - eexists; split; reflexivity.
  - reflexivity.
  - reflexivity.
  - constructor.
Defined.

(** X7.  [security_groups] is read first and cannot be left empty: a
    mapping without the key [manager] makes [run_job_flow] raise
    [KeyError] for [manager], whatever the other arguments are, and one
    that has a manager with an [id] but no [worker] makes it raise
    [KeyError] for [worker]; in both cases nothing is sent and nothing is
    logged. *)
Theorem run_job_flow_missing_security_group :
  forall name log_uri keep_alive applications job_flow_role service_role
         (groups : list (string * value)) steps emr_client w,
    (dict_get "manager" groups = None ->
     run_job_flow name log_uri keep_alive applications job_flow_role service_role
       (VDict groups) steps emr_client w
     = (Raise (KeyError (VStr "manager")), w)) /\
    (forall manager manager_id,
       dict_get "manager" groups = Some manager ->
       exposes manager "id" manager_id ->
       dict_get "worker" groups = None ->
       run_job_flow name log_uri keep_alive applications job_flow_role service_role
         (VDict groups) steps emr_client w
       = (Raise (KeyError (VStr "worker")), w)).
Proof.
  intros name log_uri keep_alive applications job_flow_role service_role
    groups steps emr_client w. split.
  - intros Hnone. rewrite run_job_flow_run. unfold run_job_flow_kwargs.
    simpl. rewrite Hnone. reflexivity.
  - intros manager manager_id Hm Hmid Hnone.
    rewrite run_job_flow_run. unfold run_job_flow_kwargs.
    simpl. rewrite Hm. simpl. rewrite (exposes_getattr _ _ _ Hmid). simpl.
    rewrite Hnone. reflexivity.
Qed.

Lemma run_job_flow_missing_security_group_witness :
  dict_get "manager" [] = None /\
  run_job_flow (VStr "demo") (VStr "s3://logs") (VBool true) (VList [VStr "Spark"])
    example_job_flow_role example_service_role (VDict []) (VList [example_step])
    example_client fresh
  = (Raise (KeyError (VStr "manager")), fresh).
Proof.
  split; [reflexivity|].
  destruct (run_job_flow_missing_security_group (VStr "demo") (VStr "s3://logs")
              (VBool true) (VList [VStr "Spark"]) example_job_flow_role
              example_service_role [] (VList [example_step]) example_client fresh)
    as [Hmanager _].
  apply Hmanager. reflexivity.
Defined.

(** *** Edge cases of [add_step] *)

(** X8.  When the client accepts the step but answers with an empty
    [StepIds] list, [add_step] raises [IndexError]: the request has been
    sent, no step id is returned and no record is emitted. *)
Theorem add_step_empty_StepIds :
  forall cluster_id name script_uri (script_args : list value) emr_client w response,
    emr_client m_add_job_flow_steps
      [ ("JobFlowId", cluster_id);
        ("Steps", VList [spark_step name script_uri script_args]) ]
      = Return response ->
    getitem response "StepIds" = Return (VList []) ->
    add_step cluster_id name script_uri (VList script_args) emr_client w =
      (Raise IndexError,
       mk_world (records w)
         (requests w ++
            [ (m_add_job_flow_steps,
               [ ("JobFlowId", cluster_id);
                 ("Steps", VList [spark_step name script_uri script_args]) ]) ])).
Proof.
  intros cluster_id name script_uri script_args emr_client w response Hcall Hids.
  rewrite add_step_run. simpl. rewrite Hcall, Hids. reflexivity.
Qed.

Lemma add_step_empty_StepIds_witness :
  add_step (VStr "j-ABC") (VStr "X") (VStr "s3://b/s.py")
    (VList [VStr "--a"; VStr "1"]) (fun _ _ => Return (VDict [("StepIds", VList [])]))
    fresh
  = (Raise IndexError,
     mk_world []
       [ (m_add_job_flow_steps,
          [ ("JobFlowId", VStr "j-ABC");
            ("Steps",
              VList [spark_step (VStr "X") (VStr "s3://b/s.py") [VStr "--a"; VStr "1"]]) ]) ]).
Proof.
  apply (add_step_empty_StepIds (VStr "j-ABC") (VStr "X") (VStr "s3://b/s.py")
           [VStr "--a"; VStr "1"] (fun _ _ => Return (VDict [("StepIds", VList [])]))
           fresh (VDict [("StepIds", VList [])])); reflexivity.
Defined.

(** X9.  When [script_args] cannot be unpacked ([None], a number, a plain
    object), [add_step] raises the error of the unpacking, which is not a
    [ClientError], before any request: the world is left as it was. *)
Theorem add_step_script_args_not_iterable :
  forall cluster_id name script_uri script_args emr_client w e,
    iterate script_args = Raise e ->
    add_step cluster_id name script_uri script_args emr_client w = (Raise e, w) /\
    is_ClientError e = false.
Proof.
  intros cluster_id name script_uri script_args emr_client w e Hiter.
  rewrite add_step_run. unfold add_step_kwargs. rewrite Hiter. simpl.
  split; [reflexivity | exact (iterate_raises _ _ Hiter)].
Qed.

Lemma add_step_script_args_not_iterable_witness :
  add_step (VStr "j-ABC") (VStr "X") (VStr "s3://b/s.py") VNone example_client fresh
    = (Raise (TypeError "object is not iterable"), fresh) /\
  is_ClientError (TypeError "object is not iterable") = false.
Proof.
  apply (add_step_script_args_not_iterable (VStr "j-ABC") (VStr "X")
           (VStr "s3://b/s.py") VNone example_client fresh).
  reflexivity.
Defined.

(** X10.  A [script_args] given as one string is unpacked character by
    character: the step [add_step] sends then has, after the four leading
    arguments, one argument per character of the string, in order, not the
    string as one argument. *)
Theorem add_step_string_script_args :
  forall cluster_id name script_uri (s : string) emr_client w,
    sends (add_step cluster_id name script_uri (VStr s) emr_client)
      w m_add_job_flow_steps
      [ ("JobFlowId", cluster_id);
        ("Steps",
          VList
            [ VDict
                [ ("Name", name);
                  ("ActionOnFailure", VStr "CONTINUE");
                  ("HadoopJarStep",
                    VDict
                      [ ("Jar", VStr "command-runner.jar");
                        ("Args",
                          VList
                            ([ VStr "spark-submit"; VStr "--deploy-mode";
                               VStr "cluster"; script_uri ] ++
                             map (fun c => VStr (String c EmptyString))
                               (list_ascii_of_string s))) ]) ] ]) ] /\
    List.length
      (map (fun c => VStr (String c EmptyString)) (list_ascii_of_string s))
    = String.length s.
Proof.
  intros cluster_id name script_uri s emr_client w.
  split; [apply add_step_sends; reflexivity|].
  rewrite length_map. induction s as [|c s IH]; simpl; congruence.
Qed.

(** *** The three functions that only read *)

(** X11.  [describe_cluster], [list_steps] and [describe_step] always make
    their one call, whatever the client does with it, and send nothing but
    the identifiers they were given: [ClusterId], and for [describe_step]
    also [StepId]. *)
Theorem read_requests_carry_only_identifiers :
  forall cluster_id step_id emr_client w,
    requests (snd (describe_cluster cluster_id emr_client w)) =
      requests w ++ [(m_describe_cluster, [("ClusterId", cluster_id)])] /\
    requests (snd (list_steps cluster_id emr_client w)) =
      requests w ++ [(m_list_steps, [("ClusterId", cluster_id)])] /\
    requests (snd (describe_step cluster_id step_id emr_client w)) =
      requests w ++
        [(m_describe_step, [("ClusterId", cluster_id); ("StepId", step_id)])].
Proof.
  intros cluster_id step_id emr_client w. repeat apply conj.
  - apply (invoke_sends (DescribeCluster cluster_id)). reflexivity.
  - apply (invoke_sends (ListSteps cluster_id)). reflexivity.
  - apply (invoke_sends (DescribeStep cluster_id step_id)). reflexivity.
Qed.

(** X12.  [list_steps] returns exactly when the client call returns a
    response that has [Steps] and what it holds has a length; what is
    returned is what [Steps] holds. *)
Theorem list_steps_returns_iff :
  forall cluster_id emr_client w v,
    fst (list_steps cluster_id emr_client w) = Return v <->
    exists response n,
      emr_client m_list_steps [("ClusterId", cluster_id)] = Return response /\
      getitem response "Steps" = Return v /\
      len v = Return n.
Proof.
  intros cluster_id emr_client w v. rewrite list_steps_run. simpl. split.
  - destruct (emr_client m_list_steps _) as [response|e].
    + destruct (getitem response "Steps") as [steps|e] eqn:Hs; [|discriminate].
      destruct (len steps) as [n|e] eqn:Hn; [|discriminate].
      simpl. intros H. inversion H; subst. exists response, n. auto.
    + destruct (is_ClientError e); discriminate.
  - intros [response [n [Hcall [Hs Hn]]]]. rewrite Hcall, Hs, Hn. reflexivity.
Qed.

Lemma list_steps_returns_iff_witness :
  fst (list_steps (VStr "j-ABC")
         (fun _ _ => Return (VDict [("Steps", VList [VDict [("Id", VStr "s-1")]])]))
         fresh)
  = Return (VList [VDict [("Id", VStr "s-1")]]).
Proof.
  apply (list_steps_returns_iff (VStr "j-ABC")
           (fun _ _ => Return (VDict [("Steps", VList [VDict [("Id", VStr "s-1")]])]))
           fresh (VList [VDict [("Id", VStr "s-1")]])).
  exists (VDict [("Steps", VList [VDict [("Id", VStr "s-1")]])]), (VInt 1).
  repeat split.
Defined.





(** *** Steps given at creation and steps added later *)

(** X15.  A step is translated the same way whether it is handed to
    [run_job_flow] or added later: the entry [run_job_flow] sends for the
    [i]-th step of its list is the one entry [add_step] sends when called
    with that step's [name], [script_uri] and [script_args]. *)
Theorem add_step_matches_run_job_flow_step :
  forall name log_uri keep_alive applications job_flow_role service_role
         security_groups (steps : list value) emr_client1 w1 kw
         i step step_name script_uri script_args cluster_id emr_client2 w2,
    sends (run_job_flow name log_uri keep_alive applications job_flow_role
             service_role security_groups (VList steps) emr_client1)
      w1 m_run_job_flow kw ->
    nth_error steps i = Some step ->
    getitem step "name" = Return step_name ->
    getitem step "script_uri" = Return script_uri ->
    getitem step "script_args" = Return script_args ->
    exists entries entry,
      dict_get "Steps" kw = Some (VList entries) /\
      nth_error entries i = Some entry /\
      sends (add_step cluster_id step_name script_uri script_args emr_client2)
        w2 m_add_job_flow_steps
        [("JobFlowId", cluster_id); ("Steps", VList [entry])].
Proof.
  intros name log_uri keep_alive applications job_flow_role service_role
    security_groups steps emr_client1 w1 kw i step step_name script_uri script_args
    cluster_id emr_client2 w2 H Hstep Hname Huri Hargs.
  apply run_job_flow_sends in H. unfold run_job_flow_kwargs in H.
  apply rbind_Return in H. destruct H as [manager [_ H]].
  apply rbind_Return in H. destruct H as [manager_id [_ H]].
  apply rbind_Return in H. destruct H as [worker [_ H]].
  apply rbind_Return in H. destruct H as [worker_id [_ H]].
  apply rbind_Return in H. destruct H as [step_items [Hiter H]].
  apply rbind_Return in H. destruct H as [entries [Hentries H]].
  apply rbind_Return in H. destruct H as [app_items [_ H]].
  apply rbind_Return in H. destruct H as [app_entries [_ H]].
  apply rbind_Return in H. destruct H as [jn [_ H]].
  apply rbind_Return in H. destruct H as [sn [_ H]].
  simpl in Hiter. inversion Hiter; subst step_items. inversion H; subst kw.
  destruct (comprehension_Return _ _ _ Hentries) as [_ Hnth].
  destruct (Hnth i step Hstep) as [entry [Hentry Hi]].
  exists entries, entry. split; [reflexivity|]. split; [exact Hi|].
  unfold step_entry in Hentry. rewrite Hname, Huri, Hargs in Hentry. simpl in Hentry.
  apply rbind_Return in Hentry. destruct Hentry as [unpacked [Hun Hentry]].
  inversion Hentry; subst entry.
  apply add_step_sends. unfold add_step_kwargs. rewrite Hun. reflexivity.
Qed.

Lemma add_step_matches_run_job_flow_step_witness :
  exists entries entry,
    dict_get "Steps" example_run_job_flow_request = Some (VList entries) /\
    nth_error entries 0 = Some entry /\
    sends (add_step (VStr "j-ABC") (VStr "X") (VStr "s3://b/s.py")
             (VList [VStr "--a"; VStr "1"]) example_client)
      fresh m_add_job_flow_steps
      [("JobFlowId", VStr "j-ABC"); ("Steps", VList [entry])].
Proof.
  apply (add_step_matches_run_job_flow_step (VStr "demo") (VStr "s3://logs")
           (VBool true) (VList [VStr "Spark"]) example_job_flow_role
           example_service_role example_security_groups [example_step]
           example_client fresh example_run_job_flow_request
           0%nat example_step (VStr "X") (VStr "s3://b/s.py")
           (VList [VStr "--a"; VStr "1"]) (VStr "j-ABC") example_client fresh);
    reflexivity.
Defined.


